(** * Verification of the evaluation agent's timer override

    Shallow embedding of [ufo/agents/agent/evaluation_agent.py]:
    the post-processing that [EvaluationAgent.evaluate] applies to the
    parsed verdict of the model, the standalone helper
    [_apply_timer_override_if_needed], and [context_provision].

    Python values are an inductive type of JSON-shaped data plus plain
    objects with attributes; a call that can raise returns [res]; a
    Python [float] is a binary64 number of the specification of IEEE 754
    floats ([spec_float] at precision 53, maximal exponent 1024). *)

From Stdlib Require Import ZArith List String Ascii Bool.
From Stdlib Require Import DecimalString.
From Stdlib Require Import Floats.SpecFloat.
Import ListNotations.

Local Open Scope string_scope.
Local Open Scope Z_scope.

(** ** Exceptions and fallible computations *)

Inductive exn : Type :=
| TypeError
| ValueError
| AttributeError
| OverflowError
| IndexError
| KeyError.

Inductive res (A : Type) : Type :=
| Ok (a : A)
| Raise (e : exn).

Arguments Ok {A} a.
Arguments Raise {A} e.

Definition bind {A B : Type} (c : res A) (k : A -> res B) : res B :=
  match c with
  | Ok a => k a
  | Raise e => Raise e
  end.

Notation "x <- c ;; k" := (bind c (fun x => k))
  (at level 61, c at next level, right associativity).

Fixpoint mapM {A B : Type} (f : A -> res B) (l : list A) : res (list B) :=
  match l with
  | [] => Ok []
  | a :: l' => b <- f a ;; bs <- mapM f l' ;; Ok (b :: bs)
  end.

(** ** Strings

    A Python [str] is kept as the bytes of its UTF-8 encoding. The
    keywords searched for are ASCII, and a byte-wise search for an ASCII
    needle in UTF-8 text finds exactly the code-point matches. *)

Definition lower_ascii (c : ascii) : ascii :=
  let n := nat_of_ascii c in
  if (Nat.leb 65 n && Nat.leb n 90)%bool then ascii_of_nat (n + 32) else c.

(** [str.lower()]: ASCII letters are folded. Of the characters outside
    ASCII only U+0130 and U+212A lower to text with an ASCII letter, and
    neither can take part in a match of the four keywords below. *)
Fixpoint lower (s : string) : string :=
  match s with
  | EmptyString => EmptyString
  | String c s' => String (lower_ascii c) (lower s')
  end.

(** [needle in hay] *)
Fixpoint contains (needle hay : string) : bool :=
  if String.prefix needle hay then true
  else match hay with
       | EmptyString => false
       | String _ hay' => contains needle hay'
       end.

(** Python's white space among the ASCII characters: tab, line feed,
    vertical tab, form feed, carriage return, the separators 28 to 31 and
    the blank. *)
Definition is_space (c : ascii) : bool :=
  let n := nat_of_ascii c in
  ((Nat.leb 9 n && Nat.leb n 13) || (Nat.leb 28 n && Nat.leb n 32))%bool.

(** The white space of two bytes: U+0085 and U+00A0. *)
Definition is_space2 (c1 c2 : ascii) : bool :=
  let n2 := nat_of_ascii c2 in
  (Nat.eqb (nat_of_ascii c1) 194 && (Nat.eqb n2 133 || Nat.eqb n2 160))%bool.

(** The white space of three bytes: U+1680, U+2000 to U+200A, U+2028,
    U+2029, U+202F, U+205F and U+3000. *)
Definition is_space3 (c1 c2 c3 : ascii) : bool :=
  let n1 := nat_of_ascii c1 in
  let n2 := nat_of_ascii c2 in
  let n3 := nat_of_ascii c3 in
  ((Nat.eqb n1 225 && Nat.eqb n2 154 && Nat.eqb n3 128)
   || (Nat.eqb n1 226 && Nat.eqb n2 128
       && ((Nat.leb 128 n3 && Nat.leb n3 138)
           || Nat.eqb n3 168 || Nat.eqb n3 169 || Nat.eqb n3 175))
   || (Nat.eqb n1 226 && Nat.eqb n2 129 && Nat.eqb n3 159)
   || (Nat.eqb n1 227 && Nat.eqb n2 128 && Nat.eqb n3 128))%bool.

(** The text is white space throughout: [s.isspace()] or [s == ""]. *)
Fixpoint all_space (s : string) : bool :=
  match s with
  | EmptyString => true
  | String c1 s1 =>
      if is_space c1 then all_space s1
      else
        match s1 with
        | EmptyString => false
        | String c2 s2 =>
            if is_space2 c1 c2 then all_space s2
            else
              match s2 with
              | EmptyString => false
              | String c3 s3 =>
                  if is_space3 c1 c2 c3 then all_space s3 else false
              end
        end
  end.

(** [str.rstrip()]: the text without the white space at its end. *)
Fixpoint rstrip (s : string) : string :=
  match s with
  | EmptyString => EmptyString
  | String c s' => if all_space s then EmptyString else String c (rstrip s')
  end.

Definition nl : string := String (ascii_of_nat 10) EmptyString.

(** ** Floats *)

Definition float : Type := spec_float.

(** The binary64 format. *)
Definition prec : Z := 53.
Definition emax : Z := 1024.

Definition float_of_Z (z : Z) : float := binary_normalize prec emax z 0 false.

Definition fzero : float := S754_zero false.
Definition fone : float := float_of_Z 1.

Definition float_ltb (x y : float) : bool := SFltb x y.
Definition float_leb (x y : float) : bool := SFleb x y.
Definition float_mul (x y : float) : float := SFmul prec emax x y.

(** The literal [0.9]: the double nearest to 9/10. *)
Definition f0_9 : float := SFdiv prec emax (float_of_Z 9) (float_of_Z 10).

Definition float_is_zero (x : float) : bool :=
  match x with S754_zero _ => true | _ => false end.

Definition float_is_inf (x : float) : bool :=
  match x with S754_infinity _ => true | _ => false end.

Definition digits (z : Z) : string := NilZero.string_of_uint (N.to_uint (Z.to_N z)).

(** The value [m * 2^e] in tenths, rounded to nearest, ties to even. *)
Definition tenths (m : positive) (e : Z) : Z :=
  if 0 <=? e then 10 * Zpos m * 2 ^ e
  else
    let d := 2 ^ (- e) in
    let q := (10 * Zpos m) / d in
    let r := (10 * Zpos m) mod d in
    if 2 * r <? d then q
    else if d <? 2 * r then q + 1
    else if Z.even q then q else q + 1.

Definition sign_str (s : bool) : string := if s then "-" else "".

(** The format specification [:.1f] *)
Definition fmt_1f (x : float) : string :=
  match x with
  | S754_nan => "nan"
  | S754_infinity s => sign_str s ++ "inf"
  | S754_zero s => sign_str s ++ "0.0"
  | S754_finite s m e =>
      let t := tenths m e in
      sign_str s ++ digits (t / 10) ++ "." ++ digits (t mod 10)
  end.

(** ** Python values *)

#[local] Set Warnings "-register-all".

Inductive pyval : Type :=
| PNone
| PBool (b : bool)
| PInt (z : Z)
| PFloat (f : float)
| PStr (s : string)
| PList (l : list pyval)
| PDict (d : list (string * pyval))
| PObj (attrs : list (string * pyval)).

Definition dict : Type := list (string * pyval).

(** [d.get(k)] as an option *)
Fixpoint dict_get (k : string) (d : dict) : option pyval :=
  match d with
  | [] => None
  | (k', v) :: d' => if String.eqb k k' then Some v else dict_get k d'
  end.

(** [d.get(k, default)] *)
Definition dict_get_default (k : string) (d : dict) (default : pyval) : pyval :=
  match dict_get k d with
  | Some v => v
  | None => default
  end.

(** [k in d] *)
Definition dict_mem (k : string) (d : dict) : bool :=
  match dict_get k d with
  | Some _ => true
  | None => false
  end.

(** [d[k] = v]: an existing key keeps its place, a new one goes last. *)
Fixpoint dict_set (k : string) (v : pyval) (d : dict) : dict :=
  match d with
  | [] => [(k, v)]
  | (k', v') :: d' =>
      if String.eqb k k' then (k, v) :: d' else (k', v') :: dict_set k v d'
  end.

(** [bool(v)] *)
Definition py_truthy (v : pyval) : bool :=
  match v with
  | PNone => false
  | PBool b => b
  | PInt z => negb (z =? 0)
  | PFloat f => negb (float_is_zero f)
  | PStr s => negb (String.eqb s "")
  | PList l => match l with [] => false | _ => true end
  | PDict d => match d with [] => false | _ => true end
  | PObj _ => true
  end.

(** [a or b] *)
Definition py_or (a b : pyval) : pyval := if py_truthy a then a else b.

Definition is_none (v : pyval) : bool :=
  match v with PNone => true | _ => false end.

Definition fail_symbol : string := "❌".
Definition pass_symbol : string := "✅".
Definition uncertain_symbol : string := "❓".

(** Plain attribute access [o.name], [getattr(o, name, default)],
    [hasattr(o, name)] and [o.name = v]. Only plain objects carry the
    attributes read here; the built-in values have none of them. *)
Definition py_getattr (o : pyval) (name : string) : res pyval :=
  match o with
  | PObj a => match dict_get name a with
              | Some v => Ok v
              | None => Raise AttributeError
              end
  | _ => Raise AttributeError
  end.

Definition getattr_default (o : pyval) (name : string) (default : pyval) : pyval :=
  match py_getattr o name with
  | Ok v => v
  | Raise _ => default
  end.

Definition hasattr (o : pyval) (name : string) : bool :=
  match py_getattr o name with
  | Ok _ => true
  | Raise _ => false
  end.

Definition py_setattr (o : pyval) (name : string) (v : pyval) : res pyval :=
  match o with
  | PObj a => Ok (PObj (dict_set name v a))
  | _ => Raise AttributeError
  end.

(** The elements a [for] loop visits: the items of a list, the
    characters of a string (one string per byte here), the keys of a
    dict; anything else is not iterable. *)
Definition py_iter (v : pyval) : res (list pyval) :=
  match v with
  | PList l => Ok l
  | PStr s => Ok (map (fun c => PStr (String c EmptyString)) (list_ascii_of_string s))
  | PDict d => Ok (map (fun kv => PStr (fst kv)) d)
  | _ => Raise TypeError
  end.

(** [a + b] for a string [b] *)
Definition py_add_str (a : pyval) (b : string) : res pyval :=
  match a with
  | PStr s => Ok (PStr (s ++ b))
  | _ => Raise TypeError
  end.

(** [v.lower()] *)
Definition py_lower (v : pyval) : res string :=
  match v with
  | PStr s => Ok (lower s)
  | _ => Raise AttributeError
  end.

(** [v == s] for a string [s] *)
Definition py_eq_str (v : pyval) (s : string) : bool :=
  match v with
  | PStr t => String.eqb t s
  | _ => false
  end.

(** ** The shared context

    [Context] is defined outside this file; [context.get(key)] either
    returns a value or raises. *)

Inductive ContextNames : Type :=
| TOOL_INFO
| TIMER_LIMIT_SECONDS
| TIMER_ELAPSED_SECONDS
| TIMER_DURATION_SATISFIED.

Definition Context : Type := ContextNames -> res pyval.

Definition timer_note (elapsed limit : float) : string :=
  "Timer override applied: internal timer reports elapsed "
  ++ fmt_1f elapsed ++ "s for a requested limit of " ++ fmt_1f limit
  ++ "s, so the duration requirement is considered satisfied.".

(** [f"{v:.1f}"]; only floats reach the two f-strings of this file. *)
Definition py_fmt_1f (v : pyval) : res string :=
  match v with
  | PFloat f => Ok (fmt_1f f)
  | _ => Raise TypeError
  end.

(** [v > 0], [v <= 0], [a >= b], [a < b] and [0.9 * v] on floats, the
    only operands that reach them below. *)
Definition py_gt_zero (v : pyval) : res bool :=
  match v with
  | PFloat f => Ok (float_ltb fzero f)
  | _ => Raise TypeError
  end.

Definition py_le_zero (v : pyval) : res bool :=
  match v with
  | PFloat f => Ok (float_leb f fzero)
  | _ => Raise TypeError
  end.

Definition py_ge (a b : pyval) : res bool :=
  match a, b with
  | PFloat x, PFloat y => Ok (float_leb y x)
  | _, _ => Raise TypeError
  end.

Definition py_lt (a b : pyval) : res bool :=
  match a, b with
  | PFloat x, PFloat y => Ok (float_ltb x y)
  | _, _ => Raise TypeError
  end.

Definition py_mul_0_9 (v : pyval) : res pyval :=
  match v with
  | PFloat f => Ok (PFloat (float_mul f0_9 f))
  | _ => Raise TypeError
  end.

(** ** The agent *)

Section EvaluationAgent.

(** What the interpreter and the collaborators of the agent do, outside
    this file: [float(s)] on a string ([None] where it raises
    [ValueError]), the prompter, the model call and the JSON parser. *)
Variable float_of_str : string -> option float.
Variable prompter : Type.
Variable message : Type.
Variable create_api_prompt_template : pyval -> prompter -> res prompter.
Variable message_constructor :
  prompter -> string -> string -> bool -> res message.
Variable get_response : message -> res (string * float).
Variable json_parser : string -> res pyval.

(** [float(v)] *)
Definition py_float (v : pyval) : res float :=
  match v with
  | PNone => Raise TypeError
  | PBool b => Ok (if b then fone else fzero)
  | PInt z =>
      let f := float_of_Z z in
      if float_is_inf f then Raise OverflowError else Ok f
  | PFloat f => Ok f
  | PStr s => match float_of_str s with
              | Some f => Ok f
              | None => Raise ValueError
              end
  | PList _ | PDict _ | PObj _ => Raise TypeError
  end.

(** *** [context_provision] *)

(** [tool_info_dict[agent_name]]: a mapping is read at a key, a list at
    an integer or a boolean, counted from the end when negative. *)
Definition py_getitem (c k : pyval) : res pyval :=
  match c, k with
  | PDict d, PStr s => match dict_get s d with
                       | Some v => Ok v
                       | None => Raise KeyError
                       end
  | PDict _, (PList _ | PDict _) => Raise TypeError
  | PDict _, _ => Raise KeyError
  | PList l, (PInt _ | PBool _) =>
      let i := match k with
               | PInt z => z
               | PBool true => 1
               | _ => 0
               end in
      let n := Z.of_nat (List.length l) in
      let j := if i <? 0 then i + n else i in
      if (0 <=? j) && (j <? n) then Ok (nth (Z.to_nat j) l PNone)
      else Raise IndexError
  | _, _ => Raise TypeError
  end.

(** [[tool.tool_name for tool in tool_list] if tool_list else []] *)
Definition tool_names (tool_list : pyval) : res (list pyval) :=
  if py_truthy tool_list then
    tools <- py_iter tool_list ;;
    mapM (fun tool => py_getattr tool "tool_name") tools
  else Ok [].

(** The body of the loop over the agents: the tool names that are
    logged for one agent. *)
Definition provision_agent (tool_info_dict agent_name : pyval)
  : res (pyval * list pyval) :=
  tool_list <- py_getitem tool_info_dict agent_name ;;
  tool_name_list <- tool_names tool_list ;;
  Ok (agent_name, tool_name_list).

(** The prompter after the call; it is left as it was when the context
    is absent. *)
Definition context_provision (self_prompter : prompter)
    (context : option Context) : res prompter :=
  match context with
  | None => Ok self_prompter
  | Some ctx =>
      tool_info_dict <- ctx TOOL_INFO ;;
      agents <- py_iter tool_info_dict ;;
      _ <- mapM (provision_agent tool_info_dict) agents ;;
      create_api_prompt_template tool_info_dict self_prompter
  end.

(** *** The override inside [evaluate] *)

(** The three lookups under one [try]: any exception leaves all three
    locals at [None]. *)
Definition lookup_timer (ctx : Context) : pyval * pyval * pyval :=
  match ctx TIMER_LIMIT_SECONDS with
  | Raise _ => (PNone, PNone, PNone)
  | Ok limit =>
      match ctx TIMER_ELAPSED_SECONDS with
      | Raise _ => (PNone, PNone, PNone)
      | Ok elapsed =>
          match ctx TIMER_DURATION_SATISFIED with
          | Raise _ => (PNone, PNone, PNone)
          | Ok satisfied_flag => (limit, elapsed, satisfied_flag)
          end
      end
  end.

(** [except (TypeError, ValueError)] around the two conversions *)
Definition catch_conversion (c : res (pyval * pyval)) : res (pyval * pyval) :=
  match c with
  | Raise TypeError | Raise ValueError => Ok (PNone, PNone)
  | other => other
  end.

Definition convert_timer (limit elapsed : pyval) : res (pyval * pyval) :=
  if negb (is_none limit) && negb (is_none elapsed) then
    catch_conversion
      (l <- py_float limit ;;
       e <- py_float elapsed ;;
       Ok (PFloat l, PFloat e))
  else Ok (limit, elapsed).

(** [limit and elapsed is not None and limit > 0] *)
Definition timer_guard (limit elapsed : pyval) : res bool :=
  if py_truthy limit then
    if negb (is_none elapsed) then py_gt_zero limit else Ok false
  else Ok false.

(** [bool(satisfied_flag) or (elapsed >= limit)] *)
Definition duration_ok (satisfied_flag elapsed limit : pyval) : res bool :=
  if py_truthy satisfied_flag then Ok true else py_ge elapsed limit.

Definition metric_is_duration (metric : string) : bool :=
  contains "second" metric
  || contains "duration" metric
  || contains "minute" metric
  || contains "time" metric.

(** The body of the loop over the sub-scores; the entry after it. *)
Definition flip_sub_score (s : pyval) : res pyval :=
  match s with
  | PDict d =>
      metric <- py_lower (py_or (dict_get_default "metric" d PNone) (PStr "")) ;;
      if metric_is_duration metric
      then Ok (PDict (dict_set "evaluation" (PStr pass_symbol) d))
      else Ok s
  | _ => Raise AttributeError
  end.

(** The loop; its value is [sub_scores] after the mutations. A list
    holds its updated entries; the elements of a string or a dict are
    strings, which have no [get]. *)
Definition flip_sub_scores (sub_scores : pyval) : res pyval :=
  elems <- py_iter sub_scores ;;
  elems' <- mapM flip_sub_score elems ;;
  Ok (match sub_scores with
      | PList _ => PList elems'
      | _ => sub_scores
      end).

Definition override_note (elapsed limit : pyval) : res string :=
  e <- py_fmt_1f elapsed ;;
  l <- py_fmt_1f limit ;;
  Ok ("Timer override applied: internal timer reports elapsed "
      ++ e ++ "s for a requested limit of " ++ l
      ++ "s, so the duration requirement is considered satisfied.").

(** The branch under [if duration_ok:] *)
Definition apply_override (limit elapsed result : pyval) : res pyval :=
  match result with
  | PDict r =>
      sub_scores <- flip_sub_scores (dict_get_default "sub_scores" r (PList [])) ;;
      let r1 := dict_set "sub_scores" sub_scores r in
      let r2 := if dict_mem "task_is_complete" r1
                then dict_set "task_is_complete" (PBool true) r1
                else r1 in
      let base_reason := py_or (dict_get_default "reason" r2 PNone) (PStr "") in
      note <- override_note elapsed limit ;;
      if py_truthy base_reason then
        head <- py_add_str base_reason (nl ++ nl) ;;
        reason <- py_add_str head note ;;
        Ok (PDict (dict_set "reason" reason r2))
      else Ok (PDict (dict_set "reason" (PStr note) r2))
  | _ => Raise AttributeError
  end.

(** The block of [evaluate] between the JSON parse and the return. *)
Definition timer_override (context : option Context) (result : pyval)
  : res pyval :=
  match context with
  | None => Ok result
  | Some ctx =>
      let '(limit, elapsed, satisfied_flag) := lookup_timer ctx in
      le <- convert_timer limit elapsed ;;
      let '(limit, elapsed) := le in
      guard <- timer_guard limit elapsed ;;
      if guard then
        ok <- duration_ok satisfied_flag elapsed limit ;;
        if ok then apply_override limit elapsed result else Ok result
      else Ok result
  end.

(** *** The standalone helper [_apply_timer_override_if_needed] *)

(** The two lookups under one [try]; [None] when one raises. *)
Definition lookup_elapsed_limit (ctx : Context) : option (pyval * pyval) :=
  match ctx TIMER_ELAPSED_SECONDS with
  | Raise _ => None
  | Ok elapsed =>
      match ctx TIMER_LIMIT_SECONDS with
      | Raise _ => None
      | Ok limit => Some (elapsed, limit)
      end
  end.

Definition helper_keywords : list string :=
  ["second"; "seconds"; "minute"; "duration"; "time"].

(** [any(k in metric_text for k in [...])] *)
Definition metric_has_keyword (metric_text : string) : bool :=
  existsb (fun k => contains k metric_text) helper_keywords.

(** The body of the first loop; the entry after it. *)
Definition helper_flip (sub : pyval) : res pyval :=
  metric_text <- py_lower (py_or (getattr_default sub "metric" (PStr "")) (PStr "")) ;;
  if metric_has_keyword metric_text then
    if py_eq_str (getattr_default sub "evaluation" PNone) fail_symbol
    then py_setattr sub "evaluation" (PStr pass_symbol)
    else Ok sub
  else Ok sub.

(** Step 1: [sub_scores] after the loop, run when it is truthy. *)
Definition helper_flip_all (sub_scores : pyval) : res pyval :=
  if py_truthy sub_scores then
    elems <- py_iter sub_scores ;;
    elems' <- mapM helper_flip elems ;;
    Ok (match sub_scores with
        | PList _ => PList elems'
        | _ => sub_scores
        end)
  else Ok sub_scores.

(** Step 2: no entry of [result.sub_scores or []] is at the fail symbol. *)
Definition helper_all_ok (sub_scores : pyval) : res bool :=
  elems <- py_iter (py_or sub_scores (PList [])) ;;
  Ok (forallb
        (fun sub => negb (py_eq_str (getattr_default sub "evaluation" PNone)
                                    fail_symbol))
        elems).

(** Step 3: the value of [result.reason] after the note is added or
    found; [note not in reason] needs a container and [rstrip] a
    string. *)
Definition helper_reason (reason : pyval) (note : string) : res pyval :=
  if negb (py_truthy reason) then Ok (PStr note)
  else
    match reason with
    | PStr r =>
        if negb (contains note r)
        then Ok (PStr (rstrip r ++ nl ++ nl ++ note))
        else Ok reason
    | PList l =>
        if negb (existsb (fun v => py_eq_str v note) l)
        then Raise AttributeError
        else Ok reason
    | PDict d =>
        if negb (dict_mem note d) then Raise AttributeError else Ok reason
    | _ => Raise TypeError
    end.

Definition helper_override (elapsed limit result : pyval) : res pyval :=
  sub_scores <- py_getattr result "sub_scores" ;;
  sub_scores <- helper_flip_all sub_scores ;;
  result <- py_setattr result "sub_scores" sub_scores ;;
  result <-
    (if hasattr result "is_passed" then
       all_ok <- helper_all_ok sub_scores ;;
       py_setattr result "is_passed" (PBool all_ok)
     else Ok result) ;;
  note <- override_note elapsed limit ;;
  reason <- py_getattr result "reason" ;;
  reason <- helper_reason reason note ;;
  py_setattr result "reason" reason.

Definition _apply_timer_override_if_needed (result : pyval) (context : Context)
  : res pyval :=
  match lookup_elapsed_limit context with
  | None => Ok result
  | Some (elapsed, limit) =>
      if is_none elapsed || is_none limit then Ok result
      else
        match (e <- py_float elapsed ;; l <- py_float limit ;;
               Ok (PFloat e, PFloat l)) with
        | Raise TypeError | Raise ValueError => Ok result
        | Raise e => Raise e
        | Ok (elapsed, limit) =>
            nonsense <- py_le_zero limit ;;
            if nonsense then Ok result
            else
              threshold <- py_mul_0_9 limit ;;
              short <- py_lt elapsed threshold ;;
              if short then Ok result
              else helper_override elapsed limit result
        end
  end.

Definition evaluate (self_prompter : prompter) (request log_path : string)
    (eva_all_screenshots : bool) (context : option Context)
  : res (pyval * float) :=
  p <- context_provision self_prompter context ;;
  msg <- message_constructor p log_path request eva_all_screenshots ;;
  rc <- get_response msg ;;
  let '(raw, cost) := rc in
  result <- json_parser raw ;;
  result <- timer_override context result ;;
  Ok (result, cost).

(** *** Vocabulary of the statements *)

(** The context holds a limit and an elapsed time that convert to the
    floats [l] and [e], the limit is positive, and the flag is set or
    the elapsed time reaches the limit. *)
Inductive override_fires (ctx : Context) (l e : float) : Prop :=
| Fires (limit elapsed flag : pyval)
    (Hlimit : ctx TIMER_LIMIT_SECONDS = Ok limit)
    (Helapsed : ctx TIMER_ELAPSED_SECONDS = Ok elapsed)
    (Hflag : ctx TIMER_DURATION_SATISFIED = Ok flag)
    (Hl : py_float limit = Ok l)
    (He : py_float elapsed = Ok e)
    (Hpos : float_ltb fzero l = true)
    (Hok : (py_truthy flag || float_leb l e)%bool = true).

(** [float(v)] raises one of the two exceptions the conversion
    catches. *)
Definition not_numeric (v : pyval) : Prop :=
  py_float v = Raise TypeError \/ py_float v = Raise ValueError.

(** The context carries no usable timer data: it is absent, a timer
    lookup raises, a timer value is missing, a conversion fails with
    [TypeError] or [ValueError] before anything else is raised, or the
    limit is not above zero. *)
Inductive no_timer_data : option Context -> Prop :=
| NoContext : no_timer_data None
| LookupRaises ctx key e
    (Hkey : key <> TOOL_INFO)
    (Hraise : ctx key = Raise e) : no_timer_data (Some ctx)
| ValueMissing ctx limit elapsed flag
    (Hlimit : ctx TIMER_LIMIT_SECONDS = Ok limit)
    (Helapsed : ctx TIMER_ELAPSED_SECONDS = Ok elapsed)
    (Hflag : ctx TIMER_DURATION_SATISFIED = Ok flag)
    (Hnone : limit = PNone \/ elapsed = PNone) : no_timer_data (Some ctx)
| LimitNotNumeric ctx limit elapsed flag
    (Hlimit : ctx TIMER_LIMIT_SECONDS = Ok limit)
    (Helapsed : ctx TIMER_ELAPSED_SECONDS = Ok elapsed)
    (Hflag : ctx TIMER_DURATION_SATISFIED = Ok flag)
    (Hnot : not_numeric limit) : no_timer_data (Some ctx)
| ElapsedNotNumeric ctx limit elapsed flag l
    (Hlimit : ctx TIMER_LIMIT_SECONDS = Ok limit)
    (Helapsed : ctx TIMER_ELAPSED_SECONDS = Ok elapsed)
    (Hflag : ctx TIMER_DURATION_SATISFIED = Ok flag)
    (Hl : py_float limit = Ok l)
    (Hnot : not_numeric elapsed) : no_timer_data (Some ctx)
| LimitNotPositive ctx limit elapsed flag l e
    (Hlimit : ctx TIMER_LIMIT_SECONDS = Ok limit)
    (Helapsed : ctx TIMER_ELAPSED_SECONDS = Ok elapsed)
    (Hflag : ctx TIMER_DURATION_SATISFIED = Ok flag)
    (Hl : py_float limit = Ok l)
    (He : py_float elapsed = Ok e)
    (Hle : float_leb l fzero = true) : no_timer_data (Some ctx).

(** A tool list the comprehension can read: falsy, or a list of
    objects with a [tool_name]. *)
Definition tools_readable (tool_list : pyval) : bool :=
  negb (py_truthy tool_list)
  || match tool_list with
     | PList l => forallb (fun tool => hasattr tool "tool_name") l
     | _ => false
     end.

(** The helper has no usable timer data: a lookup raises, a value is
    missing, a conversion raises [TypeError] or [ValueError] before
    anything else is raised, the limit is at most zero, or the elapsed
    time is below nine tenths of the limit. *)
Inductive helper_skips (ctx : Context) : Prop :=
| HelperLookupRaises key e
    (Hkey : key = TIMER_ELAPSED_SECONDS \/ key = TIMER_LIMIT_SECONDS)
    (Hraise : ctx key = Raise e)
| HelperValueMissing elapsed limit
    (Helapsed : ctx TIMER_ELAPSED_SECONDS = Ok elapsed)
    (Hlimit : ctx TIMER_LIMIT_SECONDS = Ok limit)
    (Hnone : elapsed = PNone \/ limit = PNone)
| HelperElapsedNotNumeric elapsed limit
    (Helapsed : ctx TIMER_ELAPSED_SECONDS = Ok elapsed)
    (Hlimit : ctx TIMER_LIMIT_SECONDS = Ok limit)
    (Hnot : not_numeric elapsed)
| HelperLimitNotNumeric elapsed limit e
    (Helapsed : ctx TIMER_ELAPSED_SECONDS = Ok elapsed)
    (Hlimit : ctx TIMER_LIMIT_SECONDS = Ok limit)
    (He : py_float elapsed = Ok e)
    (Hnot : not_numeric limit)
| HelperLimitNotPositive elapsed limit e l
    (Helapsed : ctx TIMER_ELAPSED_SECONDS = Ok elapsed)
    (Hlimit : ctx TIMER_LIMIT_SECONDS = Ok limit)
    (He : py_float elapsed = Ok e)
    (Hl : py_float limit = Ok l)
    (Hle : float_leb l fzero = true)
| HelperTooEarly elapsed limit e l
    (Helapsed : ctx TIMER_ELAPSED_SECONDS = Ok elapsed)
    (Hlimit : ctx TIMER_LIMIT_SECONDS = Ok limit)
    (He : py_float elapsed = Ok e)
    (Hl : py_float limit = Ok l)
    (Hshort : float_ltb e (float_mul f0_9 l) = true).

(** The helper runs its override: both lookups return, both values
    convert, to [e] and [l], the limit is above zero or not a number,
    and the elapsed time is not below nine tenths of it. *)
Inductive helper_fires (ctx : Context) (e l : float) : Prop :=
| HelperFires elapsed limit
    (Helapsed : ctx TIMER_ELAPSED_SECONDS = Ok elapsed)
    (Hlimit : ctx TIMER_LIMIT_SECONDS = Ok limit)
    (He : py_float elapsed = Ok e)
    (Hl : py_float limit = Ok l)
    (Hpos : float_leb l fzero = false)
    (Hlong : float_ltb e (float_mul f0_9 l) = false).

End EvaluationAgent.

(** ** Vocabulary of the statements on verdicts *)

(** [s.get("metric") or ""] *)
Definition entry_metric (d : dict) : pyval :=
  py_or (dict_get_default "metric" d PNone) (PStr "").

(** A sub-score the loop can read: a mapping whose metric is text or
    falsy. *)
Definition entry_readable (s : pyval) : bool :=
  match s with
  | PDict d => match entry_metric d with PStr _ => true | _ => false end
  | _ => false
  end.

(** The metric of the sub-score mentions one of the keywords, in any
    case. *)
Definition duration_related (s : pyval) : bool :=
  match s with
  | PDict d => match entry_metric d with
               | PStr m => metric_is_duration (lower m)
               | _ => false
               end
  | _ => false
  end.

Definition set_pass (s : pyval) : pyval :=
  match s with
  | PDict d => PDict (dict_set "evaluation" (PStr pass_symbol) d)
  | _ => s
  end.

Definition sub_scores_of (d : dict) : pyval :=
  dict_get_default "sub_scores" d (PList []).

(** [result.get("reason") or ""] *)
Definition base_reason_of (d : dict) : pyval :=
  py_or (dict_get_default "reason" d PNone) (PStr "").

(** A verdict the override can process: a mapping whose sub-scores are a
    list of readable entries and whose reason is text or falsy. *)
Definition verdict_readable (result : pyval) : bool :=
  match result with
  | PDict d =>
      match sub_scores_of d with
      | PList l => forallb entry_readable l
      | _ => false
      end
      && match base_reason_of d with PStr _ => true | _ => false end
  | _ => false
  end.

(** A field of a sub-score. *)
Definition field (k : string) (s : pyval) : option pyval :=
  match s with
  | PDict d => dict_get k d
  | _ => None
  end.

(** What the loop makes of a readable sub-score. *)
Definition flipped (s : pyval) : pyval :=
  if duration_related s then set_pass s else s.

(** The mapping between the second step and the third. *)
Definition completed (d : dict) (sub_scores : pyval) : dict :=
  if dict_mem "task_is_complete" (dict_set "sub_scores" sub_scores d)
  then dict_set "task_is_complete" (PBool true) (dict_set "sub_scores" sub_scores d)
  else dict_set "sub_scores" sub_scores d.

(** The mapping after the three steps, given the sub-scores after the
    loop and the note. *)
Definition overridden (d : dict) (sub_scores : pyval) (note : string) : dict :=
  let r1 := dict_set "sub_scores" sub_scores d in
  let r2 := if dict_mem "task_is_complete" r1
            then dict_set "task_is_complete" (PBool true) r1
            else r1 in
  let reason := match base_reason_of r2 with
                | PStr b => if String.eqb b "" then note
                            else (b ++ (nl ++ nl)) ++ note
                | _ => note
                end in
  dict_set "reason" (PStr reason) r2.

(** The number of places at which [needle] occurs in [hay]. *)
Fixpoint occurrences (needle hay : string) : nat :=
  (if String.prefix needle hay then 1 else 0)%nat
  + match hay with
    | EmptyString => 0
    | String _ hay' => occurrences needle hay'
    end.

(** ** Concrete contexts and verdicts *)

(** A context that holds no tools and the three timer values. *)
Definition timer_context (limit elapsed flag : pyval) : Context :=
  fun key =>
    match key with
    | TOOL_INFO => Ok (PDict [])
    | TIMER_LIMIT_SECONDS => Ok limit
    | TIMER_ELAPSED_SECONDS => Ok elapsed
    | TIMER_DURATION_SATISFIED => Ok flag
    end.

(** A [float(s)] that rejects every string; no concrete context below
    holds a string as a timer value. *)
Definition no_float_of_str : string -> option float := fun _ => None.

Definition five_minutes (evaluation : string) : pyval :=
  PDict [("metric", PStr "Completed within 5 minutes");
         ("evaluation", PStr evaluation)].

Definition five_minute_verdict (complete : pyval) (reason : string) : pyval :=
  PDict [("task_is_complete", complete);
         ("sub_scores", PList [five_minutes fail_symbol]);
         ("reason", PStr reason)].

Definition note_300 : string :=
  "Timer override applied: internal timer reports elapsed 300.0s for a requested limit of 300.0s, so the duration requirement is considered satisfied.".

Definition f300 : float := float_of_Z 300.

(** ** The two overrides side by side *)

Definition as_object (v : pyval) : pyval :=
  match v with
  | PDict d => PObj d
  | _ => v
  end.

(** The typed response for a verdict: an object with the fields of the
    mapping, whose sub-scores are objects with the fields of the
    entries. *)
Definition as_response (result : pyval) : pyval :=
  match result with
  | PDict d =>
      PObj (map (fun kv =>
                   (fst kv,
                    match snd kv with
                    | PList l => if String.eqb (fst kv) "sub_scores"
                                 then PList (map as_object l)
                                 else snd kv
                    | v => v
                    end)) d)
  | _ => result
  end.

(** The fields of a mapping or the attributes of an object. *)
Definition members (v : pyval) : dict :=
  match v with
  | PDict d | PObj d => d
  | _ => []
  end.

Definition member (k : string) (v : pyval) : option pyval :=
  dict_get k (members v).

(** The evaluations of the sub-scores, in order. *)
Definition evaluations (v : pyval) : list (option pyval) :=
  match member "sub_scores" v with
  | Some (PList l) => map (member "evaluation") l
  | _ => []
  end.

(** How often the text [note] occurs in the reason. *)
Definition notes_in_reason (note : string) (v : pyval) : nat :=
  match member "reason" v with
  | Some (PStr r) => occurrences note r
  | _ => 0
  end.

Definition circle_verdict : pyval :=
  PDict [("task_is_complete", PBool false);
         ("is_passed", PBool true);
         ("sub_scores",
          PList [PDict [("metric", PStr "Circle of radius 200px drawn");
                        ("evaluation", PStr fail_symbol)]]);
         ("reason", PStr "No circle was drawn.")].

Definition uncertain_fields : dict :=
  [("task_is_complete", PBool false);
   ("sub_scores", PList [five_minutes uncertain_symbol]);
   ("reason", PStr "The duration could not be read off the log.")].

Definition uncertain_verdict : pyval := PDict uncertain_fields.

(** A verdict with neither [task_is_complete] nor [sub_scores]. *)
Definition bare_fields : dict := [("reason", PStr "Too slow.")].

Definition slow_fields : dict :=
  [("task_is_complete", PBool false);
   ("sub_scores", PList [five_minutes fail_symbol]);
   ("reason", PStr "Too slow.")].

Definition context_300 : Context := timer_context (PInt 300) (PInt 300) PNone.

(** 95 seconds of a limit of 100, no flag. *)
Definition context_95_of_100 : Context := timer_context (PInt 100) (PInt 95) PNone.

(** 10 seconds of a limit of 100, flagged as satisfied. *)
Definition context_flagged : Context :=
  timer_context (PInt 100) (PInt 10) (PBool true).

(** 100 seconds of a limit of 300, no flag. *)
Definition context_100_of_300 : Context := timer_context (PInt 300) (PInt 100) PNone.

(** A limit of zero and an elapsed time that is an integer beyond the
    range of a float. *)
Definition context_huge_elapsed : Context :=
  timer_context (PInt 0) (PInt (2 ^ 1024)) PNone.

(** A context in which no key is bound: every lookup returns [None]. *)
Definition empty_context : Context := fun _ => Ok PNone.

(** A context with one agent and its two tools. *)
Definition tools_context : Context :=
  fun key =>
    match key with
    | TOOL_INFO =>
        Ok (PDict [("HostAgent",
                    PList [PObj [("tool_name", PStr "click")];
                           PObj [("tool_name", PStr "type_text")]]);
                   ("AppAgent", PNone)])
    | _ => Ok PNone
    end.

(** Collaborators that accept everything: a prompter without state, a
    model that answers [raw] at cost [cost], a parser that reads
    [verdict]. *)
Definition accept_tools : pyval -> unit -> res unit := fun _ p => Ok p.
Definition build_message : unit -> string -> string -> bool -> res unit :=
  fun _ _ _ _ => Ok tt.
Definition answer (raw : string) (cost : float) : unit -> res (string * float) :=
  fun _ => Ok (raw, cost).
Definition parse_as (verdict : pyval) : string -> res pyval :=
  fun _ => Ok verdict.

(** ** Vocabulary of the further statements *)

(** Sub-scores the loop of [evaluate] runs through: a list of readable
    entries, or an empty string or mapping, over which it does not
    iterate at all. *)
Definition sub_scores_processable (v : pyval) : bool :=
  match v with
  | PList l => forallb entry_readable l
  | PStr s => String.eqb s ""
  | PDict d => match d with [] => true | _ => false end
  | _ => false
  end.

(** A verdict on which the override branch of [evaluate] returns. *)
Definition verdict_processable (result : pyval) : bool :=
  match result with
  | PDict d =>
      sub_scores_processable (sub_scores_of d)
      && match base_reason_of d with PStr _ => true | _ => false end
  | _ => false
  end.

(** The keys of a mapping, in order. *)
Definition keys (d : dict) : list string := map fst d.

(** The elements a loop over [v] visits, none when [v] is not
    iterable. *)
Definition elements (v : pyval) : list pyval :=
  match py_iter v with
  | Ok l => l
  | Raise _ => []
  end.

(** The sub-score is at the fail symbol, read as the helper reads it. *)
Definition failed (sub : pyval) : bool :=
  py_eq_str (getattr_default sub "evaluation" PNone) fail_symbol.

(** The metric of the sub-score, read as the helper reads it, has one of
    its keywords. *)
Definition helper_matches (sub : pyval) : bool :=
  match py_lower (py_or (getattr_default sub "metric" (PStr "")) (PStr "")) with
  | Ok metric_text => metric_has_keyword metric_text
  | Raise _ => false
  end.

(** A response with one failed duration sub-score and one failed
    sub-score of another kind. *)
Definition mixed_response : pyval :=
  PObj [("is_passed", PBool true);
        ("sub_scores",
         PList [PObj [("metric", PStr "Finished in 60 seconds");
                      ("evaluation", PStr fail_symbol)];
                PObj [("metric", PStr "Circle of radius 200px drawn");
                      ("evaluation", PStr fail_symbol)]]);
        ("reason", PStr "Too slow, and no circle.  ");
        ("complete", PStr "no")].

(** A context whose tool information names a tool list that is a
    number. *)
Definition broken_tools_context : Context :=
  fun key =>
    match key with
    | TOOL_INFO => Ok (PDict [("HostAgent", PList []); ("AppAgent", PInt 3)])
    | _ => Ok PNone
    end.


(** A verdict with a key the override does not know. *)
Definition extended_fields : dict :=
  [("confidence", PFloat f0_9);
   ("reason", PStr "Too slow.");
   ("task_is_complete", PBool false)].

(** The mapping of tool information of [broken_tools_context]. *)
Definition broken_tools : dict :=
  [("HostAgent", PList []); ("AppAgent", PInt 3)].

(** * Properties *)

(** ** Dictionaries *)

Lemma dict_get_set_same k v d : dict_get k (dict_set k v d) = Some v.
Proof.
  induction d as [|[k' v'] d IH]; simpl.
  - now rewrite String.eqb_refl.
  - destruct (String.eqb k k') eqn:E; simpl; rewrite ?E, ?String.eqb_refl; auto.
Qed.

Lemma dict_get_set_other k k' v d :
  k <> k' -> dict_get k (dict_set k' v d) = dict_get k d.
Proof.
  intros Hk. apply String.eqb_neq in Hk.
  induction d as [|[k0 v0] d IH]; simpl.
  - now rewrite Hk.
  - destruct (String.eqb k' k0) eqn:E; simpl.
    + apply String.eqb_eq in E; subst k0. now rewrite Hk.
    + now rewrite IH.
Qed.

Lemma dict_set_set k v w d : dict_set k v (dict_set k w d) = dict_set k v d.
Proof.
  induction d as [|[k' v'] d IH]; simpl.
  - now rewrite String.eqb_refl.
  - destruct (String.eqb k k') eqn:E; simpl; rewrite ?E, ?String.eqb_refl, ?IH; auto.
Qed.

Lemma dict_mem_set_other k k' v d :
  k <> k' -> dict_mem k (dict_set k' v d) = dict_mem k d.
Proof. intros H. unfold dict_mem. now rewrite dict_get_set_other. Qed.

(** ** Sequencing and loops *)

Lemma bind_ok {A B} (c : res A) (k : A -> res B) b :
  bind c k = Ok b -> exists a, c = Ok a /\ k a = Ok b.
Proof. destruct c; simpl; [eauto | discriminate]. Qed.

Lemma mapM_ok_Forall2 {A B} (f : A -> res B) l l' :
  mapM f l = Ok l' -> Forall2 (fun a b => f a = Ok b) l l'.
Proof.
  revert l'. induction l as [|a l IH]; simpl; intros l' H.
  - injection H as <-. constructor.
  - apply bind_ok in H as (b & Hb & H).
    apply bind_ok in H as (bs & Hbs & H).
    injection H as <-. constructor; auto.
Qed.

Lemma mapM_pure {A B} (f : A -> res B) (g : A -> B) l :
  Forall (fun a => f a = Ok (g a)) l -> mapM f l = Ok (map g l).
Proof.
  induction 1 as [|a l Ha _ IH]; simpl; [reflexivity|].
  now rewrite Ha, IH.
Qed.

(** ** Strings *)

Lemma prefix_app_l a b : String.prefix a (a ++ b) = true.
Proof.
  induction a as [|c a IH]; simpl.
  - now destruct b.
  - destruct (Ascii.ascii_dec c c); [exact IH | congruence].
Qed.

Lemma contains_cons needle c t :
  contains needle (String c t)
  = (String.prefix needle (String c t) || contains needle t)%bool.
Proof.
  change (contains needle (String c t))
    with (if String.prefix needle (String c t) then true else contains needle t).
  now destruct (String.prefix needle (String c t)).
Qed.

Lemma contains_prefix needle s :
  String.prefix needle s = true -> contains needle s = true.
Proof.
  intros H. destruct s as [|c t].
  - change (contains needle "") with (if String.prefix needle "" then true else false).
    now rewrite H.
  - rewrite contains_cons, H. reflexivity.
Qed.

Lemma contains_app_l p s needle :
  contains needle s = true -> contains needle (p ++ s) = true.
Proof.
  intros H. induction p as [|c p IH]; [exact H|].
  change (String c p ++ s) with (String c (p ++ s)).
  rewrite contains_cons, IH. apply orb_true_r.
Qed.

Lemma contains_intro p needle s : contains needle (p ++ needle ++ s) = true.
Proof. apply contains_app_l, contains_prefix, prefix_app_l. Qed.

Lemma contains_self s : contains s s = true.
Proof.
  generalize (contains_intro "" s ""). simpl.
  replace (s ++ "") with s; auto.
  induction s; simpl; congruence.
Qed.

(** ** Floats *)

Lemma float_pos_truthy l : float_ltb fzero l = true -> float_is_zero l = false.
Proof. destruct l as [[]| | |]; simpl; auto; discriminate. Qed.

(** ** The branch taken when the override fires *)

Lemma override_note_floats e l :
  override_note (PFloat e) (PFloat l) = Ok (timer_note e l).
Proof. reflexivity. Qed.

Lemma flip_sub_score_readable s :
  entry_readable s = true ->
  flip_sub_score s = Ok (if duration_related s then set_pass s else s).
Proof.
  destruct s as [| | | | | |d|]; try discriminate. simpl.
  fold (entry_metric d). destruct (entry_metric d); try discriminate.
  intros _. simpl. now destruct (metric_is_duration (lower s)).
Qed.

Lemma flip_sub_score_inv s s' :
  flip_sub_score s = Ok s' ->
  entry_readable s = true /\ s' = if duration_related s then set_pass s else s.
Proof.
  intros H. assert (R : entry_readable s = true).
  { destruct s as [| | | | | |d|]; try discriminate. simpl in *.
    fold (entry_metric d) in H. now destruct (entry_metric d). }
  split; [exact R|]. rewrite (flip_sub_score_readable _ R) in H. congruence.
Qed.

Lemma flip_sub_scores_list l :
  forallb entry_readable l = true ->
  flip_sub_scores (PList l)
  = Ok (PList (map flipped l)).
Proof.
  intros H. unfold flip_sub_scores. cbn [py_iter bind].
  rewrite (mapM_pure flip_sub_score flipped).
  - reflexivity.
  - apply Forall_forall. intros s Hs. apply flip_sub_score_readable.
    rewrite forallb_forall in H. auto.
Qed.

Lemma flip_sub_scores_list_inv l v :
  flip_sub_scores (PList l) = Ok v ->
  forallb entry_readable l = true
  /\ v = PList (map flipped l).
Proof.
  intros H. assert (R : forallb entry_readable l = true).
  { unfold flip_sub_scores in H. cbn [py_iter bind] in H.
    apply bind_ok in H as (l' & Hm & _).
    apply mapM_ok_Forall2 in Hm.
    induction Hm as [|s s' l l' Hs _ IH]; [reflexivity|]. simpl.
    apply flip_sub_score_inv in Hs as [-> _]. exact IH. }
  split; [exact R|]. rewrite (flip_sub_scores_list _ R) in H. congruence.
Qed.

Lemma apply_override_inv l e result result' :
  apply_override (PFloat l) (PFloat e) result = Ok result' ->
  exists d sub_scores,
    result = PDict d
    /\ flip_sub_scores (sub_scores_of d) = Ok sub_scores
    /\ result' = PDict (overridden d sub_scores (timer_note e l)).
Proof.
  destruct result as [| | | | | |d|]; try discriminate.
  unfold apply_override. intros H.
  apply bind_ok in H as (subs & Hs & H).
  exists d, subs. split; [reflexivity|]. split; [exact Hs|].
  rewrite override_note_floats in H. cbn [bind] in H.
  unfold overridden. cbv zeta. fold (base_reason_of
    (if dict_mem "task_is_complete" (dict_set "sub_scores" subs d)
     then dict_set "task_is_complete" (PBool true) (dict_set "sub_scores" subs d)
     else dict_set "sub_scores" subs d)) in H.
  destruct (base_reason_of _) as [|x|x|x|x|x|x|x] eqn:Hb; cbn [py_truthy] in H;
    try (destruct x; simpl in H; congruence);
    try (cbn [bind py_add_str] in H; congruence).
  destruct (String.eqb x ""); simpl in H; injection H as <-; reflexivity.
Qed.

Lemma dict_set_get_same k v d : dict_get k d = Some v -> dict_set k v d = d.
Proof.
  induction d as [|[k' v'] d IH]; simpl; [discriminate|].
  destruct (String.eqb k k') eqn:E.
  - apply String.eqb_eq in E. congruence.
  - intros H. now rewrite IH.
Qed.

Lemma completed_get_other k d subs :
  k <> "sub_scores" -> k <> "task_is_complete" ->
  dict_get k (completed d subs) = dict_get k d.
Proof.
  intros H1 H2. unfold completed.
  destruct (dict_mem _ _); rewrite ?(dict_get_set_other _ _ _ _ H2);
    apply dict_get_set_other; exact H1.
Qed.

Lemma base_reason_completed d subs :
  base_reason_of (completed d subs) = base_reason_of d.
Proof.
  unfold base_reason_of, dict_get_default.
  rewrite completed_get_other; [reflexivity| |]; discriminate.
Qed.

Lemma overridden_eq d subs note :
  overridden d subs note
  = dict_set "reason"
      (PStr match base_reason_of d with
            | PStr b => if String.eqb b "" then note else (b ++ (nl ++ nl)) ++ note
            | _ => note
            end)
      (completed d subs).
Proof.
  unfold overridden. cbv zeta. fold (completed d subs).
  now rewrite base_reason_completed.
Qed.

Lemma overridden_sub_scores d subs note :
  dict_get "sub_scores" (overridden d subs note) = Some subs.
Proof.
  rewrite overridden_eq, dict_get_set_other by discriminate.
  unfold completed. destruct (dict_mem _ _);
    rewrite ?dict_get_set_other by discriminate; apply dict_get_set_same.
Qed.

Lemma overridden_complete d subs note :
  dict_get "task_is_complete" (overridden d subs note)
  = if dict_mem "task_is_complete" d then Some (PBool true) else None.
Proof.
  rewrite overridden_eq, dict_get_set_other by discriminate.
  unfold completed. rewrite dict_mem_set_other by discriminate.
  destruct (dict_mem "task_is_complete" d) eqn:E.
  - apply dict_get_set_same.
  - rewrite dict_get_set_other by discriminate.
    unfold dict_mem in E. now destruct (dict_get "task_is_complete" d).
Qed.

Lemma overridden_reason d subs note :
  dict_get "reason" (overridden d subs note)
  = Some (PStr match base_reason_of d with
               | PStr b => if String.eqb b "" then note
                           else (b ++ (nl ++ nl)) ++ note
               | _ => note
               end).
Proof. rewrite overridden_eq. apply dict_get_set_same. Qed.

Lemma overridden_other k d subs note :
  k <> "sub_scores" -> k <> "task_is_complete" -> k <> "reason" ->
  dict_get k (overridden d subs note) = dict_get k d.
Proof.
  intros H1 H2 H3. rewrite overridden_eq, dict_get_set_other by exact H3.
  now apply completed_get_other.
Qed.

Lemma apply_override_readable l e d subs :
  sub_scores_of d = PList subs ->
  verdict_readable (PDict d) = true ->
  apply_override (PFloat l) (PFloat e) (PDict d)
  = Ok (PDict (overridden d (PList (map flipped subs)) (timer_note e l))).
Proof.
  intros Hs R. unfold verdict_readable in R. rewrite Hs in R.
  apply andb_prop in R as [R1 R2].
  unfold apply_override. fold (sub_scores_of d). rewrite Hs.
  rewrite (flip_sub_scores_list _ R1). cbn [bind].
  rewrite override_note_floats. cbn [bind].
  fold (completed d (PList (map flipped subs))).
  fold (base_reason_of (completed d (PList (map flipped subs)))).
  rewrite overridden_eq, base_reason_completed.
  destruct (base_reason_of d) as [|x|x|x|x|x|x|x]; try discriminate.
  cbn [py_truthy]. destruct (String.eqb x ""); reflexivity.
Qed.

Lemma set_pass_field_other k s :
  k <> "evaluation" -> field k (set_pass s) = field k s.
Proof.
  intros H. destruct s; try reflexivity. simpl. now apply dict_get_set_other.
Qed.

Lemma set_pass_evaluation s :
  duration_related s = true -> field "evaluation" (set_pass s) = Some (PStr pass_symbol).
Proof.
  destruct s; try discriminate. intros _. simpl. apply dict_get_set_same.
Qed.

Lemma entry_metric_set_pass d :
  entry_metric (dict_set "evaluation" (PStr pass_symbol) d) = entry_metric d.
Proof.
  unfold entry_metric, dict_get_default.
  now rewrite dict_get_set_other by discriminate.
Qed.

Lemma flipped_readable s : entry_readable (flipped s) = entry_readable s.
Proof.
  unfold flipped. destruct (duration_related s); [|reflexivity].
  destruct s; try reflexivity. simpl. now rewrite entry_metric_set_pass.
Qed.

Lemma flipped_idem s : flipped (flipped s) = flipped s.
Proof.
  unfold flipped. destruct (duration_related s) eqn:E; rewrite ?E; [|reflexivity].
  destruct s; try discriminate. simpl in *.
  rewrite entry_metric_set_pass, E. now rewrite dict_set_set.
Qed.

Lemma flipped_spec s :
  if duration_related s
  then field "evaluation" (flipped s) = Some (PStr pass_symbol)
       /\ forall k, k <> "evaluation" -> field k (flipped s) = field k s
  else flipped s = s.
Proof.
  unfold flipped. destruct (duration_related s) eqn:E; [|reflexivity].
  split; [now apply set_pass_evaluation|].
  intros k Hk. now apply set_pass_field_other.
Qed.

Lemma Forall2_map_intro {A B} (P : A -> B -> Prop) (f : A -> B) l :
  (forall a, P a (f a)) -> Forall2 P l (map f l).
Proof. intros H. induction l; simpl; constructor; auto. Qed.

Lemma timer_note_not_empty e l : String.eqb (timer_note e l) "" = false.
Proof. reflexivity. Qed.

Lemma app_not_empty a b : String.eqb a "" = false -> String.eqb (a ++ b) "" = false.
Proof. destruct a; [discriminate | reflexivity]. Qed.

(** ** The override of [evaluate] *)

Section TimerOverride.

Variable float_of_str : string -> option float.

Local Abbreviation to_float := (py_float float_of_str).
Local Abbreviation convert := (convert_timer float_of_str).
Local Abbreviation override := (timer_override float_of_str).
Local Abbreviation fires := (override_fires float_of_str).

Lemma py_float_ok_not_none v f : to_float v = Ok f -> is_none v = false.
Proof. destruct v; simpl; auto; discriminate. Qed.

Lemma lookup_timer_ok ctx limit elapsed flag :
  ctx TIMER_LIMIT_SECONDS = Ok limit ->
  ctx TIMER_ELAPSED_SECONDS = Ok elapsed ->
  ctx TIMER_DURATION_SATISFIED = Ok flag ->
  lookup_timer ctx = (limit, elapsed, flag).
Proof. intros H1 H2 H3. unfold lookup_timer. now rewrite H1, H2, H3. Qed.

Lemma convert_timer_ok limit elapsed l e :
  to_float limit = Ok l -> to_float elapsed = Ok e ->
  convert limit elapsed = Ok (PFloat l, PFloat e).
Proof.
  intros Hl He. unfold convert_timer.
  rewrite (py_float_ok_not_none _ _ Hl), (py_float_ok_not_none _ _ He), Hl, He.
  reflexivity.
Qed.

Lemma timer_guard_floats l e :
  timer_guard (PFloat l) (PFloat e) = Ok (float_ltb fzero l).
Proof.
  unfold timer_guard. simpl.
  destruct (float_ltb fzero l) eqn:Hpos.
  - now rewrite (float_pos_truthy _ Hpos).
  - now destruct (float_is_zero l).
Qed.

(** With numeric timer values the block is a test of the limit and of
    [duration_ok]. *)
Lemma timer_override_numeric ctx limit elapsed flag l e result :
  ctx TIMER_LIMIT_SECONDS = Ok limit ->
  ctx TIMER_ELAPSED_SECONDS = Ok elapsed ->
  ctx TIMER_DURATION_SATISFIED = Ok flag ->
  to_float limit = Ok l ->
  to_float elapsed = Ok e ->
  override (Some ctx) result
  = if (float_ltb fzero l && (py_truthy flag || float_leb l e))%bool
    then apply_override (PFloat l) (PFloat e) result
    else Ok result.
Proof.
  intros H1 H2 H3 Hl He. unfold timer_override.
  rewrite (lookup_timer_ok _ _ _ _ H1 H2 H3), (convert_timer_ok _ _ _ _ Hl He).
  cbn [bind]. rewrite timer_guard_floats. cbn [bind].
  destruct (float_ltb fzero l); [|reflexivity].
  unfold duration_ok. destruct (py_truthy flag); simpl; [reflexivity|].
  now destruct (float_leb l e).
Qed.

Lemma override_fires_eq ctx l e result :
  fires ctx l e ->
  override (Some ctx) result = apply_override (PFloat l) (PFloat e) result.
Proof.
  intros [limit elapsed flag H1 H2 H3 Hl He Hpos Hok].
  rewrite (timer_override_numeric _ _ _ _ _ _ _ H1 H2 H3 Hl He), Hpos, Hok.
  reflexivity.
Qed.

Lemma convert_timer_shape limit elapsed a b :
  convert limit elapsed = Ok (a, b) ->
  (exists l e, a = PFloat l /\ b = PFloat e) \/ a = PNone \/ b = PNone.
Proof.
  unfold convert_timer.
  destruct (is_none limit) eqn:Nl; [destruct limit; try discriminate; intros [= <- <-]; auto|].
  destruct (is_none elapsed) eqn:Ne; [destruct elapsed; try discriminate; intros [= <- <-]; auto|].
  cbn [negb andb]. destruct (to_float limit) as [l|x]; cbn [bind].
  - destruct (to_float elapsed) as [e|x]; cbn [bind catch_conversion].
    + intros [= <- <-]. left. eauto.
    + destruct x; intros [= <- <-] || discriminate; auto.
  - destruct x; cbn [catch_conversion]; intros [= <- <-] || discriminate; auto.
Qed.

(** Whatever the context, the block either returns the verdict as it
    is or runs the override branch on two floats. *)
Lemma timer_override_cases context result result' :
  override context result = Ok result' ->
  result' = result
  \/ exists l e, apply_override (PFloat l) (PFloat e) result = Ok result'.
Proof.
  destruct context as [ctx|]; [|intros [= <-]; auto].
  unfold timer_override.
  destruct (lookup_timer ctx) as [[limit elapsed] flag].
  intros H. apply bind_ok in H as ([a b] & Hc & H).
  apply convert_timer_shape in Hc as [(l & e & -> & ->)|[->| ->]].
  - rewrite timer_guard_floats in H. cbn [bind] in H.
    destruct (float_ltb fzero l); [|injection H; auto].
    apply bind_ok in H as ([] & _ & H); [eauto | injection H; auto].
  - cbn in H. injection H; auto.
  - unfold timer_guard in H. cbn in H.
    destruct (py_truthy a); cbn in H; injection H; auto.
Qed.

(** C4: with the context present, both timer values numeric and the
    limit above zero, [duration_ok] is the satisfied flag or
    [elapsed >= limit]; the override branch runs exactly when it is
    true, and when it is false the parsed verdict is returned as it
    was. *)
Theorem duration_ok_is_flag_or_elapsed_reaches_limit
    ctx limit elapsed flag l e result :
  ctx TIMER_LIMIT_SECONDS = Ok limit ->
  ctx TIMER_ELAPSED_SECONDS = Ok elapsed ->
  ctx TIMER_DURATION_SATISFIED = Ok flag ->
  to_float limit = Ok l ->
  to_float elapsed = Ok e ->
  float_ltb fzero l = true ->
  duration_ok flag (PFloat e) (PFloat l)
  = Ok (py_truthy flag || float_leb l e)%bool
  /\ override (Some ctx) result
     = (if (py_truthy flag || float_leb l e)%bool
        then apply_override (PFloat l) (PFloat e) result
        else Ok result)
  /\ ((py_truthy flag || float_leb l e)%bool = false ->
      override (Some ctx) result = Ok result).
Proof.
  intros H1 H2 H3 Hl He Hpos.
  assert (E := timer_override_numeric _ _ _ _ _ _ result H1 H2 H3 Hl He).
  rewrite Hpos in E. cbn [andb] in E.
  split; [|split].
  - unfold duration_ok. destruct (py_truthy flag); reflexivity.
  - exact E.
  - intros Hno. now rewrite E, Hno.
Qed.

Lemma fires_readable ctx l e d subs :
  fires ctx l e ->
  sub_scores_of d = PList subs ->
  verdict_readable (PDict d) = true ->
  override (Some ctx) (PDict d)
  = Ok (PDict (overridden d (PList (map flipped subs)) (timer_note e l))).
Proof.
  intros F Hs R. rewrite (override_fires_eq _ _ _ _ F).
  now apply apply_override_readable.
Qed.

Lemma fires_inv ctx l e d result' :
  fires ctx l e ->
  override (Some ctx) (PDict d) = Ok result' ->
  exists sub_scores,
    flip_sub_scores (sub_scores_of d) = Ok sub_scores
    /\ result' = PDict (overridden d sub_scores (timer_note e l)).
Proof.
  intros F H. rewrite (override_fires_eq _ _ _ _ F) in H.
  apply apply_override_inv in H as (d0 & subs & [= <-] & Hs & ->). eauto.
Qed.

(** C1, as the code has it: when the override fires, every sub-score
    whose metric mentions one of the keywords ends with the pass
    symbol as its evaluation, whatever the evaluation was before, and
    keeps its other fields; every other sub-score is left as it was.
    The block returns on every readable verdict. *)
Theorem override_sets_every_duration_sub_score_to_pass ctx l e d subs :
  fires ctx l e ->
  sub_scores_of d = PList subs ->
  (verdict_readable (PDict d) = true ->
   exists result', override (Some ctx) (PDict d) = Ok result')
  /\ forall result',
      override (Some ctx) (PDict d) = Ok result' ->
      exists d' subs',
        result' = PDict d'
        /\ dict_get "sub_scores" d' = Some (PList subs')
        /\ Forall2
             (fun s s' =>
                if duration_related s
                then field "evaluation" s' = Some (PStr pass_symbol)
                     /\ forall k, k <> "evaluation" -> field k s' = field k s
                else s' = s)
             subs subs'.
Proof.
  intros F Hs. split.
  - intros R. rewrite (fires_readable _ _ _ _ _ F Hs R). eauto.
  - intros result' H.
    apply (fires_inv _ _ _ _ _ F) in H as (v & Hv & ->).
    rewrite Hs in Hv. apply flip_sub_scores_list_inv in Hv as [_ ->].
    eexists _, _. split; [reflexivity|]. split; [apply overridden_sub_scores|].
    apply Forall2_map_intro. exact flipped_spec.
Qed.

(** C2, as the code has it: when the override fires, a verdict that
    has the key [task_is_complete] comes back with it at true,
    whatever its value was; a verdict without the key comes back
    without it. *)
Theorem override_forces_task_is_complete_when_present ctx l e d :
  fires ctx l e ->
  (verdict_readable (PDict d) = true ->
   exists result', override (Some ctx) (PDict d) = Ok result')
  /\ forall result',
      override (Some ctx) (PDict d) = Ok result' ->
      exists d',
        result' = PDict d'
        /\ dict_get "task_is_complete" d'
           = if dict_mem "task_is_complete" d then Some (PBool true) else None.
Proof.
  intros F. split.
  - intros R. assert (exists subs, sub_scores_of d = PList subs) as [subs Hs].
    { unfold verdict_readable in R. destruct (sub_scores_of d); try discriminate. eauto. }
    rewrite (fires_readable _ _ _ _ _ F Hs R). eauto.
  - intros result' H.
    apply (fires_inv _ _ _ _ _ F) in H as (v & Hv & ->).
    eexists. split; [reflexivity|]. apply overridden_complete.
Qed.

(** C8: whatever the context, when the verdict holds a list of
    sub-scores the returned verdict holds a list of the same length,
    and the entry at each position is the entry that was there, as it
    was or, for an entry whose metric mentions a keyword, with its
    evaluation set to the pass symbol and every other field kept. *)
Theorem override_preserves_sub_scores_sequence context d subs result' :
  dict_get "sub_scores" d = Some (PList subs) ->
  override context (PDict d) = Ok result' ->
  exists d' subs',
    result' = PDict d'
    /\ dict_get "sub_scores" d' = Some (PList subs')
    /\ List.length subs' = List.length subs
    /\ forall i s,
        nth_error subs i = Some s ->
        exists s',
          nth_error subs' i = Some s'
          /\ (s' = s
              \/ (duration_related s = true
                  /\ s' = set_pass s
                  /\ forall k, k <> "evaluation" -> field k s' = field k s)).
Proof.
  intros Hs H. apply timer_override_cases in H as [->|(l & e & H)].
  - exists d, subs. repeat split; auto. intros i s Hi. eauto.
  - apply apply_override_inv in H as (d0 & v & [= <-] & Hv & ->).
    unfold sub_scores_of, dict_get_default in Hv. rewrite Hs in Hv.
    apply flip_sub_scores_list_inv in Hv as [_ ->].
    eexists _, _. split; [reflexivity|]. split; [apply overridden_sub_scores|].
    split; [apply length_map|].
    intros i s Hi. exists (flipped s). split.
    + now rewrite nth_error_map, Hi.
    + unfold flipped. destruct (duration_related s); auto.
      right. repeat split. intros k Hk. now apply set_pass_field_other.
Qed.

(** C10: when the override fires on a verdict without the key
    [sub_scores], the returned verdict has the key, bound to the empty
    list. The block returns when the reason of the verdict is text or
    falsy. *)
Theorem override_adds_empty_sub_scores ctx l e d :
  fires ctx l e ->
  dict_get "sub_scores" d = None ->
  (verdict_readable (PDict d) = true ->
   exists result', override (Some ctx) (PDict d) = Ok result')
  /\ forall result',
      override (Some ctx) (PDict d) = Ok result' ->
      exists d',
        result' = PDict d'
        /\ dict_get "sub_scores" d' = Some (PList []).
Proof.
  intros F Hn.
  assert (Hs : sub_scores_of d = PList []).
  { unfold sub_scores_of, dict_get_default. now rewrite Hn. }
  split.
  - intros R. rewrite (fires_readable _ _ _ _ _ F Hs R). eauto.
  - intros result' H.
    apply (fires_inv _ _ _ _ _ F) in H as (v & Hv & ->).
    rewrite Hs in Hv. apply flip_sub_scores_list_inv in Hv as [_ ->].
    eexists. split; [reflexivity|]. apply overridden_sub_scores.
Qed.

Lemma completed_fixed d subs :
  dict_get "sub_scores" d = Some subs ->
  (dict_mem "task_is_complete" d = true ->
   dict_get "task_is_complete" d = Some (PBool true)) ->
  completed d subs = d.
Proof.
  intros Hs Hc. unfold completed. rewrite (dict_set_get_same _ _ _ Hs).
  destruct (dict_mem "task_is_complete" d); [|reflexivity].
  apply dict_set_get_same. auto.
Qed.

(** C3, as the code has it: a second pass of the override over an
    overridden verdict changes the reason and nothing else; it appends
    the note once more, after a blank line, although the note is
    already there. *)
Theorem second_override_appends_the_note_again ctx l e d :
  fires ctx l e ->
  verdict_readable (PDict d) = true ->
  exists d1 reason1,
    override (Some ctx) (PDict d) = Ok (PDict d1)
    /\ dict_get "reason" d1 = Some (PStr reason1)
    /\ contains (timer_note e l) reason1 = true
    /\ override (Some ctx) (PDict d1)
       = Ok (PDict (dict_set "reason"
                      (PStr ((reason1 ++ (nl ++ nl)) ++ timer_note e l)) d1)).
Proof.
  intros F R.
  assert (exists subs, sub_scores_of d = PList subs) as [subs Hs].
  { unfold verdict_readable in R. destruct (sub_scores_of d); try discriminate. eauto. }
  set (note := timer_note e l).
  set (reason1 := match base_reason_of d with
                  | PStr b => if String.eqb b "" then note
                              else (b ++ (nl ++ nl)) ++ note
                  | _ => note
                  end).
  set (d1 := overridden d (PList (map flipped subs)) note).
  assert (Hne : String.eqb reason1 "" = false).
  { subst reason1. destruct (base_reason_of d) as [|x|x|x|x|x|x|x];
      try apply timer_note_not_empty.
    destruct (String.eqb x "") eqn:E; [apply timer_note_not_empty|].
    now apply app_not_empty, app_not_empty. }
  assert (Hin : contains note reason1 = true).
  { subst reason1. destruct (base_reason_of d) as [|x|x|x|x|x|x|x];
      try apply contains_self.
    destruct (String.eqb x ""); [apply contains_self|].
    apply contains_app_l, contains_self. }
  assert (Hr1 : dict_get "reason" d1 = Some (PStr reason1))
    by apply overridden_reason.
  assert (Hs1 : sub_scores_of d1 = PList (map flipped subs)).
  { unfold sub_scores_of, dict_get_default, d1. now rewrite overridden_sub_scores. }
  assert (Hb1 : base_reason_of d1 = PStr reason1).
  { unfold base_reason_of, dict_get_default, py_or. rewrite Hr1.
    cbn [py_truthy]. now rewrite Hne. }
  assert (R1 : verdict_readable (PDict d1) = true).
  { unfold verdict_readable. rewrite Hs1, Hb1, andb_true_r.
    unfold verdict_readable in R. rewrite Hs in R.
    apply andb_prop in R as [R _].
    rewrite forallb_forall in *. intros s Hin'.
    apply in_map_iff in Hin' as (s0 & <- & Hs0).
    rewrite flipped_readable. auto. }
  exists d1, reason1. split; [|split; [|split]]; auto.
  - now apply fires_readable.
  - rewrite (fires_readable _ _ _ _ _ F Hs1 R1). fold note.
    rewrite overridden_eq, Hb1, Hne. do 3 f_equal.
    rewrite map_map, (map_ext _ _ flipped_idem).
    apply completed_fixed.
    + apply overridden_sub_scores.
    + unfold dict_mem, d1. rewrite overridden_complete.
      now destruct (dict_mem "task_is_complete" d).
Qed.

(** C6: on the sub-score "Completed within 5 minutes" at the fail
    symbol, with a limit of 300 and an elapsed time of 300, the
    override returns the sub-score at the pass symbol, completion at
    true, and a reason that is the note when the prior reason was
    empty and the prior reason, a blank line and the note otherwise;
    the note says "elapsed 300.0s" and "limit of 300.0s". *)
Theorem five_minute_scenario flag complete prior :
  exists reason,
    override (Some (timer_context (PInt 300) (PInt 300) flag))
      (five_minute_verdict complete prior)
    = Ok (PDict [("task_is_complete", PBool true);
                 ("sub_scores", PList [five_minutes pass_symbol]);
                 ("reason", PStr reason)])
    /\ reason = (if String.eqb prior "" then note_300
                 else (prior ++ (nl ++ nl)) ++ note_300)
    /\ contains "elapsed 300.0s" reason = true
    /\ contains "limit of 300.0s" reason = true.
Proof.
  assert (F : fires (timer_context (PInt 300) (PInt 300) flag) f300 f300).
  { apply (Fires _ _ _ _ (PInt 300) (PInt 300) flag); try reflexivity.
    apply orb_true_r. }
  exists (if String.eqb prior "" then note_300
          else (prior ++ (nl ++ nl)) ++ note_300).
  split; [|split; [reflexivity|]].
  - rewrite (override_fires_eq _ _ _ _ F).
    destruct prior as [|c prior]; vm_compute; reflexivity.
  - destruct (String.eqb prior "").
    + split; reflexivity.
    + split; apply contains_app_l; reflexivity.
Qed.

Lemma float_leb_zero_not_pos l :
  float_leb l fzero = true -> float_ltb fzero l = false.
Proof. destruct l as [[]|[]| |[] m e]; simpl; auto; discriminate. Qed.

Lemma timer_override_skips ctx a b flag result :
  lookup_timer ctx = (a, b, flag) ->
  convert a b = Ok (PNone, PNone) \/ is_none a = true \/ is_none b = true ->
  override (Some ctx) result = Ok result.
Proof.
  intros Hl H. unfold timer_override. rewrite Hl.
  destruct H as [H|H].
  - rewrite H. reflexivity.
  - assert (E : convert a b = Ok (a, b)).
    { unfold convert_timer.
      destruct H as [H|H]; rewrite H; cbn [negb andb]; [reflexivity|].
      now rewrite andb_false_r. }
    rewrite E. cbn [bind]. unfold timer_guard.
    destruct H as [H|H].
    + destruct a; try discriminate. reflexivity.
    + rewrite H. cbn [negb]. destruct (py_truthy a); reflexivity.
Qed.

Lemma no_timer_data_skips context result :
  no_timer_data float_of_str context -> override context result = Ok result.
Proof.
  intros [ |ctx key e Hkey Hraise
           |ctx limit elapsed flag H1 H2 H3 Hnone
           |ctx limit elapsed flag H1 H2 H3 Hnot
           |ctx limit elapsed flag l H1 H2 H3 Hl Hnot
           |ctx limit elapsed flag l e H1 H2 H3 Hl He Hle].
  - reflexivity.
  - apply (timer_override_skips ctx PNone PNone PNone); [|auto].
    unfold lookup_timer. destruct key; try contradiction; rewrite Hraise.
    + reflexivity.
    + now destruct (ctx TIMER_LIMIT_SECONDS).
    + now destruct (ctx TIMER_LIMIT_SECONDS), (ctx TIMER_ELAPSED_SECONDS).
  - apply (timer_override_skips ctx limit elapsed flag).
    + now apply lookup_timer_ok.
    + right. destruct Hnone as [-> | ->]; auto.
  - apply (timer_override_skips ctx limit elapsed flag).
    + now apply lookup_timer_ok.
    + destruct (is_none limit) eqn:Nl; auto.
      destruct (is_none elapsed) eqn:Ne; auto.
      left. unfold convert_timer. rewrite Nl, Ne. cbn [negb andb].
      destruct Hnot as [-> | ->]; reflexivity.
  - apply (timer_override_skips ctx limit elapsed flag).
    + now apply lookup_timer_ok.
    + destruct (is_none elapsed) eqn:Ne; auto.
      left. unfold convert_timer.
      rewrite (py_float_ok_not_none _ _ Hl), Ne, Hl. cbn [negb andb bind].
      destruct Hnot as [-> | ->]; reflexivity.
  - rewrite (timer_override_numeric _ _ _ _ _ _ _ H1 H2 H3 Hl He).
    now rewrite (float_leb_zero_not_pos _ Hle).
Qed.

End TimerOverride.

(** ** [evaluate] and [context_provision] *)

Section Evaluate.

Variable float_of_str : string -> option float.
Variable prompter : Type.
Variable message : Type.
Variable create_api_prompt_template : pyval -> prompter -> res prompter.
Variable message_constructor :
  prompter -> string -> string -> bool -> res message.
Variable get_response : message -> res (string * float).
Variable json_parser : string -> res pyval.

Local Abbreviation provision :=
  (context_provision prompter create_api_prompt_template).
Local Abbreviation eval :=
  (evaluate float_of_str prompter message create_api_prompt_template
     message_constructor get_response json_parser).

Lemma mapM_total {A B} (f : A -> res B) l :
  Forall (fun a => exists b, f a = Ok b) l -> exists l', mapM f l = Ok l'.
Proof.
  induction 1 as [|a l [b Hb] _ [l' IH]]; simpl; [eauto|].
  rewrite Hb, IH. simpl. eauto.
Qed.

Lemma dict_get_in k v (d : dict) : dict_get k d = Some v -> In (k, v) d.
Proof.
  induction d as [|[k' v'] d IH]; simpl; [discriminate|].
  destruct (String.eqb k k') eqn:E.
  - apply String.eqb_eq in E. intros [= ->]. left. congruence.
  - auto.
Qed.

Lemma dict_get_key k v (d : dict) :
  In (k, v) d -> exists v', dict_get k d = Some v'.
Proof.
  induction d as [|[k' v'] d IH]; simpl; [contradiction|].
  intros [[= -> ->]|H].
  - rewrite String.eqb_refl. eauto.
  - destruct (String.eqb k k'); eauto.
Qed.

Lemma tool_names_readable tool_list :
  tools_readable tool_list = true -> exists names, tool_names tool_list = Ok names.
Proof.
  unfold tools_readable, tool_names.
  destruct (py_truthy tool_list); cbn [negb orb]; [|eauto].
  destruct tool_list; try discriminate. intros H. cbn [py_iter bind].
  apply mapM_total, Forall_forall. intros tool Hin.
  rewrite forallb_forall in H. specialize (H _ Hin).
  unfold hasattr in H. destruct (py_getattr tool "tool_name"); [eauto|discriminate].
Qed.

(** C7, as the code has it: with a present context whose lookup of the
    tool information returns a mapping, possibly empty, in which every
    tool list is falsy or a list of objects with a [tool_name],
    [context_provision] raises nothing of its own and hands the mapping
    to the prompter. When the lookup returns [None] a [TypeError]
    escapes, and when it raises, its exception escapes. *)
Theorem context_provision_forwards_tool_mapping self_prompter ctx :
  (forall d,
      ctx TOOL_INFO = Ok (PDict d) ->
      forallb (fun kv => tools_readable (snd kv)) d = true ->
      provision self_prompter (Some ctx)
      = create_api_prompt_template (PDict d) self_prompter)
  /\ (ctx TOOL_INFO = Ok PNone ->
      provision self_prompter (Some ctx) = Raise TypeError)
  /\ (forall e,
        ctx TOOL_INFO = Raise e ->
        provision self_prompter (Some ctx) = Raise e).
Proof.
  split; [|split].
  - intros d Hd R. unfold context_provision. rewrite Hd. cbn [bind py_iter].
    destruct (mapM_total (provision_agent (PDict d))
                (map (fun kv => PStr (fst kv)) d)) as [logged ->]; [|reflexivity].
    apply Forall_forall. intros agent Hin.
    apply in_map_iff in Hin as ([k v] & <- & Hin). cbn [fst].
    destruct (dict_get_key _ _ _ Hin) as [v' Hv'].
    unfold provision_agent, py_getitem. rewrite Hv'. cbn [bind].
    rewrite forallb_forall in R.
    destruct (tool_names_readable v' (R _ (dict_get_in _ _ _ Hv'))) as [names ->].
    cbn [bind]. eauto.
  - intros H. unfold context_provision. now rewrite H.
  - intros e H. unfold context_provision. now rewrite H.
Qed.

(** X16: once the prompt is built, the model has answered and the
    answer is parsed, [evaluate] returns the parsed verdict as it is,
    with the cost, whenever the context carries no usable timer data:
    the context is absent, a timer lookup raises, a timer value is
    missing, a conversion raises [TypeError] or [ValueError] before
    anything else is raised, or both values convert and the limit is at
    most zero. *)
Theorem evaluate_returns_parsed_verdict_without_timer_data
    self_prompter request log_path eva_all_screenshots context
    p msg raw cost result :
  provision self_prompter context = Ok p ->
  message_constructor p log_path request eva_all_screenshots = Ok msg ->
  get_response msg = Ok (raw, cost) ->
  json_parser raw = Ok result ->
  no_timer_data float_of_str context ->
  eval self_prompter request log_path eva_all_screenshots context
  = Ok (result, cost).
Proof.
  intros Hp Hm Hr Hj Hno. unfold evaluate.
  rewrite Hp. cbn [bind]. rewrite Hm. cbn [bind]. rewrite Hr. cbn [bind].
  rewrite Hj. cbn [bind]. now rewrite (no_timer_data_skips _ _ _ Hno).
Qed.

End Evaluate.

(** ** The standalone helper against the override of [evaluate] *)

Section Helper.

Variable float_of_str : string -> option float.

Local Abbreviation to_float := (py_float float_of_str).
Local Abbreviation helper := (_apply_timer_override_if_needed float_of_str).
Local Abbreviation override := (timer_override float_of_str).

(** With numeric timer values the helper runs its override unless the
    limit is at most zero or the elapsed time is below nine tenths of
    it; the satisfied flag is not read. *)
Lemma helper_fires_at_nine_tenths ctx elapsed limit e l result :
  ctx TIMER_ELAPSED_SECONDS = Ok elapsed ->
  ctx TIMER_LIMIT_SECONDS = Ok limit ->
  to_float elapsed = Ok e ->
  to_float limit = Ok l ->
  helper result ctx
  = if float_leb l fzero then Ok result
    else if float_ltb e (float_mul f0_9 l) then Ok result
         else helper_override (PFloat e) (PFloat l) result.
Proof.
  intros H1 H2 He Hl. unfold _apply_timer_override_if_needed, lookup_elapsed_limit.
  rewrite H1, H2.
  assert (Ne : is_none elapsed = false) by (destruct elapsed; auto; discriminate).
  assert (Nl : is_none limit = false) by (destruct limit; auto; discriminate).
  rewrite Ne, Nl, He, Hl. cbn [orb bind py_le_zero py_mul_0_9 py_lt].
  destruct (float_leb l fzero); [reflexivity|].
  now destruct (float_ltb e (float_mul f0_9 l)).
Qed.

(** The helper leaves a sub-score as it is unless its metric has a
    keyword and its evaluation is the fail symbol. *)
Lemma helper_flip_only_fail sub sub' :
  helper_flip sub = Ok sub' ->
  sub' = sub
  \/ (py_eq_str (getattr_default sub "evaluation" PNone) fail_symbol = true
      /\ py_setattr sub "evaluation" (PStr pass_symbol) = Ok sub').
Proof.
  unfold helper_flip. intros H. apply bind_ok in H as (m & _ & H).
  destruct (metric_has_keyword m); [|injection H; auto].
  destruct (py_eq_str _ fail_symbol); [auto | injection H; auto].
Qed.

(** C9: the standalone helper and the override of [evaluate] disagree
    on one verdict, read as a typed response by the one and as a
    mapping by the other. At 95 seconds of a limit of 100 only the
    helper fires; at 10 seconds with the satisfied flag only the
    override of [evaluate] fires; a duration sub-score at the uncertain
    symbol is set to pass by [evaluate] and kept by the helper; with a
    failed sub-score left, [evaluate] sets [task_is_complete] to true
    and the helper sets [is_passed] to false; a reason that holds the
    note already gets it a second time from [evaluate] and not from
    the helper. *)
Theorem the_two_overrides_differ :
  (override (Some context_95_of_100) (PDict slow_fields) = Ok (PDict slow_fields)
   /\ exists h,
       helper (as_response (PDict slow_fields)) context_95_of_100 = Ok h
       /\ evaluations h = [Some (PStr pass_symbol)]
       /\ h <> as_response (PDict slow_fields))
  /\ (helper (as_response (PDict slow_fields)) context_flagged
      = Ok (as_response (PDict slow_fields))
      /\ exists i,
          override (Some context_flagged) (PDict slow_fields) = Ok i
          /\ evaluations i = [Some (PStr pass_symbol)]
          /\ member "task_is_complete" i = Some (PBool true))
  /\ (exists i h,
        override (Some context_300) uncertain_verdict = Ok i
        /\ helper (as_response uncertain_verdict) context_300 = Ok h
        /\ evaluations i = [Some (PStr pass_symbol)]
        /\ evaluations h = [Some (PStr uncertain_symbol)])
  /\ (exists i h,
        override (Some context_300) circle_verdict = Ok i
        /\ helper (as_response circle_verdict) context_300 = Ok h
        /\ member "task_is_complete" i = Some (PBool true)
        /\ member "is_passed" i = Some (PBool true)
        /\ member "task_is_complete" h = Some (PBool false)
        /\ member "is_passed" h = Some (PBool false))
  /\ (exists i h,
        override (Some context_300) (five_minute_verdict (PBool true) note_300) = Ok i
        /\ helper (as_response (five_minute_verdict (PBool true) note_300))
             context_300 = Ok h
        /\ notes_in_reason note_300 i = 2%nat
        /\ notes_in_reason note_300 h = 1%nat).
Proof.
  split; [|split; [|split; [|split]]].
  - split; [vm_compute; reflexivity|].
    eexists. split; [vm_compute; reflexivity|].
    split; [vm_compute; reflexivity|]. vm_compute. discriminate.
  - split; [vm_compute; reflexivity|].
    eexists. repeat split; vm_compute; reflexivity.
  - eexists _, _. repeat split; vm_compute; reflexivity.
  - eexists _, _. repeat split; vm_compute; reflexivity.
  - eexists _, _. repeat split; vm_compute; reflexivity.
Qed.

End Helper.

(** ** Concrete runs *)

Lemma context_300_fires : override_fires no_float_of_str context_300 f300 f300.
Proof.
  apply (Fires _ _ _ _ (PInt 300) (PInt 300) PNone); reflexivity.
Defined.

(** C1, counterexample: a duration sub-score at the uncertain symbol does
    not keep its evaluation; the override returns it at the pass
    symbol. *)
Lemma override_flips_uncertain_sub_score :
  evaluations uncertain_verdict = [Some (PStr uncertain_symbol)]
  /\ exists out,
      timer_override no_float_of_str (Some context_300) uncertain_verdict = Ok out
      /\ evaluations out = [Some (PStr pass_symbol)]
      /\ evaluations out <> evaluations uncertain_verdict.
Proof.
  split; [reflexivity|]. eexists. split; [vm_compute; reflexivity|].
  split; [reflexivity|]. vm_compute. discriminate.
Qed.

Lemma override_sets_every_duration_sub_score_to_pass_witness :
  exists result',
    timer_override no_float_of_str (Some context_300) (PDict uncertain_fields)
    = Ok result'.
Proof.
  apply (proj1 (override_sets_every_duration_sub_score_to_pass
                  no_float_of_str context_300 f300 f300 uncertain_fields
                  [five_minutes uncertain_symbol] context_300_fires eq_refl)).
  reflexivity.
Defined.

(** C2, counterexample: the override fires on a verdict without the key
    [task_is_complete], and the returned verdict does not have it
    either. *)
Lemma override_leaves_task_is_complete_absent :
  member "task_is_complete" (PDict bare_fields) = None
  /\ exists out,
      timer_override no_float_of_str (Some context_300) (PDict bare_fields) = Ok out
      /\ member "task_is_complete" out = None
      /\ member "task_is_complete" out <> Some (PBool true).
Proof.
  split; [reflexivity|]. eexists. split; [vm_compute; reflexivity|].
  split; [reflexivity|]. vm_compute. discriminate.
Qed.

Lemma override_forces_task_is_complete_when_present_witness :
  exists result',
    timer_override no_float_of_str (Some context_300) (PDict slow_fields)
    = Ok result'.
Proof.
  apply (proj1 (override_forces_task_is_complete_when_present
                  no_float_of_str context_300 f300 f300 slow_fields
                  context_300_fires)).
  reflexivity.
Defined.

(** C3, counterexample: the second pass over an overridden verdict
    returns another verdict, in whose reason the note occurs twice. *)
Lemma override_is_not_idempotent :
  exists once twice,
    timer_override no_float_of_str (Some context_300) (PDict slow_fields) = Ok once
    /\ timer_override no_float_of_str (Some context_300) once = Ok twice
    /\ twice <> once
    /\ notes_in_reason note_300 once = 1%nat
    /\ notes_in_reason note_300 twice = 2%nat.
Proof.
  eexists _, _. split; [vm_compute; reflexivity|].
  split; [vm_compute; reflexivity|].
  split; [vm_compute; discriminate|]. split; vm_compute; reflexivity.
Qed.

Lemma second_override_appends_the_note_again_witness :
  exists d1 reason1,
    timer_override no_float_of_str (Some context_300) (PDict slow_fields)
    = Ok (PDict d1)
    /\ dict_get "reason" d1 = Some (PStr reason1)
    /\ contains (timer_note f300 f300) reason1 = true
    /\ timer_override no_float_of_str (Some context_300) (PDict d1)
       = Ok (PDict (dict_set "reason"
                      (PStr ((reason1 ++ (nl ++ nl)) ++ timer_note f300 f300)) d1)).
Proof.
  apply (second_override_appends_the_note_again
           no_float_of_str context_300 f300 f300 slow_fields context_300_fires).
  reflexivity.
Defined.

Lemma duration_ok_is_flag_or_elapsed_reaches_limit_witness :
  timer_override no_float_of_str (Some context_100_of_300) (PDict slow_fields)
  = Ok (PDict slow_fields).
Proof.
  apply (duration_ok_is_flag_or_elapsed_reaches_limit
           no_float_of_str context_100_of_300 (PInt 300) (PInt 100) PNone
           f300 (float_of_Z 100) (PDict slow_fields)
           eq_refl eq_refl eq_refl eq_refl eq_refl eq_refl).
  reflexivity.
Defined.

(** C5, at the failing input: with a limit of zero and an elapsed time
    that is an integer too large for a float, the limit is not above
    zero and the elapsed time cannot be converted, so the claim asks for
    the parsed verdict unchanged; [evaluate] converts both values before
    it tests the limit, and the [OverflowError] of the conversion, which
    is neither [TypeError] nor [ValueError], escapes. *)
Lemma evaluate_raises_on_huge_elapsed :
  py_float no_float_of_str (PInt 0) = Ok fzero
  /\ float_leb fzero fzero = true
  /\ py_float no_float_of_str (PInt (2 ^ 1024)) = Raise OverflowError
  /\ evaluate no_float_of_str unit unit accept_tools build_message
       (answer "{}" fzero) (parse_as (PDict slow_fields))
       tt "Draw a circle" "./logs/test_paint5" true (Some context_huge_elapsed)
     = Raise OverflowError
  /\ evaluate no_float_of_str unit unit accept_tools build_message
       (answer "{}" fzero) (parse_as (PDict slow_fields))
       tt "Draw a circle" "./logs/test_paint5" true (Some context_huge_elapsed)
     <> Ok (PDict slow_fields, fzero).
Proof.
  repeat (split; [vm_compute; reflexivity|]). vm_compute. discriminate.
Qed.

Lemma evaluate_returns_parsed_verdict_without_timer_data_witness :
  evaluate no_float_of_str unit unit accept_tools build_message
    (answer "{}" fzero) (parse_as (PDict slow_fields))
    tt "Draw a circle" "./logs/test_paint5" true
    (Some (timer_context (PInt 0) (PInt 42) (PBool true)))
  = Ok (PDict slow_fields, fzero).
Proof.
  apply (evaluate_returns_parsed_verdict_without_timer_data
           no_float_of_str unit unit accept_tools build_message
           (answer "{}" fzero) (parse_as (PDict slow_fields))
           tt "Draw a circle" "./logs/test_paint5" true
           (Some (timer_context (PInt 0) (PInt 42) (PBool true)))
           tt tt "{}" fzero (PDict slow_fields)
           eq_refl eq_refl eq_refl eq_refl).
  apply (LimitNotPositive no_float_of_str _ (PInt 0) (PInt 42) (PBool true)
           fzero (float_of_Z 42)); reflexivity.
Defined.

(** C7, counterexample: with a present context in which the tool
    information is missing, so that the lookup returns [None],
    [context_provision] does not complete: [TypeError] escapes. *)
Lemma context_provision_raises_on_missing_tool_info :
  empty_context TOOL_INFO = Ok PNone
  /\ context_provision unit accept_tools tt (Some empty_context) = Raise TypeError.
Proof. split; reflexivity. Qed.

Lemma context_provision_forwards_tool_mapping_witness :
  context_provision unit accept_tools tt (Some tools_context) = Ok tt.
Proof.
  apply (proj1 (context_provision_forwards_tool_mapping
                  unit accept_tools tt tools_context) _ eq_refl).
  reflexivity.
Defined.

Lemma override_preserves_sub_scores_sequence_witness :
  exists d' subs',
    PDict [("task_is_complete", PBool true);
           ("sub_scores", PList [five_minutes pass_symbol]);
           ("reason", PStr (("Too slow." ++ (nl ++ nl)) ++ note_300))]
    = PDict d'
    /\ dict_get "sub_scores" d' = Some (PList subs')
    /\ List.length subs' = 1%nat
    /\ forall i s,
        nth_error [five_minutes fail_symbol] i = Some s ->
        exists s',
          nth_error subs' i = Some s'
          /\ (s' = s
              \/ (duration_related s = true
                  /\ s' = set_pass s
                  /\ forall k, k <> "evaluation" -> field k s' = field k s)).
Proof.
  apply (override_preserves_sub_scores_sequence
           no_float_of_str (Some context_300) slow_fields
           [five_minutes fail_symbol] _ eq_refl).
  vm_compute. reflexivity.
Defined.

Lemma override_adds_empty_sub_scores_witness :
  exists result',
    timer_override no_float_of_str (Some context_300) (PDict bare_fields)
    = Ok result'.
Proof.
  apply (proj1 (override_adds_empty_sub_scores
                  no_float_of_str context_300 f300 f300 bare_fields
                  context_300_fires eq_refl)).
  reflexivity.
Defined.

(** * Further properties *)

(** ** The override of [evaluate]: frame, key order, errors *)

Lemma dict_set_keys k v d :
  keys (dict_set k v d) = if dict_mem k d then keys d else (keys d ++ [k])%list.
Proof.
  unfold keys, dict_mem.
  induction d as [|[k' v'] d IH]; simpl; [reflexivity|].
  destruct (String.eqb k k') eqn:E; simpl.
  - apply String.eqb_eq in E. now subst.
  - rewrite IH. now destruct (dict_get k d).
Qed.

Lemma mapM_raise_kind {A B} (P : exn -> Prop) (f : A -> res B) l e :
  (forall a x, f a = Raise x -> P x) -> mapM f l = Raise e -> P e.
Proof.
  intros Hf. induction l as [|a l IH]; simpl; [discriminate|].
  destruct (f a) eqn:Ha; simpl.
  - destruct (mapM f l); simpl; [discriminate|]. intros [= <-]. now apply IH.
  - intros [= <-]. eauto.
Qed.

Lemma flip_sub_score_raises s e :
  flip_sub_score s = Raise e -> e = AttributeError.
Proof.
  destruct s as [| | | | | |d|]; simpl; try congruence.
  destruct (py_or _ _); simpl; try congruence.
  destruct (metric_is_duration _); discriminate.
Qed.

Lemma flip_sub_scores_processable v :
  sub_scores_processable v = true ->
  exists v', flip_sub_scores v = Ok v'.
Proof.
  destruct v as [| | | |s|l|d|]; try discriminate.
  - destruct s; [|discriminate]. intros _. cbv. eauto.
  - intros H. rewrite (flip_sub_scores_list _ H). eauto.
  - destruct d; [|discriminate]. intros _. cbv. eauto.
Qed.

Lemma flip_sub_scores_unprocessable v :
  sub_scores_processable v = false ->
  exists e, flip_sub_scores v = Raise e /\ (e = TypeError \/ e = AttributeError).
Proof.
  intros H. destruct (flip_sub_scores v) as [v'|e] eqn:E.
  - exfalso. destruct v as [| | | |s|l|d|]; try discriminate.
    + destruct s as [|c s]; [discriminate|]. discriminate.
    + apply flip_sub_scores_list_inv in E as [E _]. simpl in H. congruence.
    + destruct d as [|[k x] d]; discriminate.
  - exists e. split; [reflexivity|].
    unfold flip_sub_scores in E.
    destruct (py_iter v) as [elems|x] eqn:Hi.
    + right. cbn [bind] in E.
      destruct (mapM flip_sub_score elems) eqn:Hm; [discriminate|].
      injection E as <-.
      apply (mapM_raise_kind _ _ _ _ flip_sub_score_raises Hm).
    + left. cbn [bind] in E. injection E as <-.
      destruct v; simpl in Hi; congruence.
Qed.

Lemma base_reason_shape d :
  (exists b, base_reason_of d = PStr b)
  \/ (py_truthy (base_reason_of d) = true
      /\ forall note, py_add_str (base_reason_of d) note = Raise TypeError).
Proof.
  unfold base_reason_of, py_or.
  destruct (py_truthy (dict_get_default "reason" d PNone)) eqn:T; [|eauto].
  destruct (dict_get_default "reason" d PNone); eauto.
Qed.

Lemma apply_override_processable l e result :
  verdict_processable result = true ->
  exists result', apply_override (PFloat l) (PFloat e) result = Ok result'.
Proof.
  destruct result as [| | | | | |d|]; try discriminate.
  intros H. simpl in H. apply andb_prop in H as [Hs Hr].
  unfold apply_override. fold (sub_scores_of d).
  destruct (flip_sub_scores_processable _ Hs) as [v ->]. cbn [bind].
  rewrite override_note_floats. cbn [bind].
  fold (completed d v). fold (base_reason_of (completed d v)).
  rewrite base_reason_completed.
  destruct (base_reason_of d) as [|x|x|x|x|x|x|x]; try discriminate.
  cbn [py_truthy]. destruct (String.eqb x ""); cbn; eauto.
Qed.

Lemma apply_override_unprocessable l e result :
  verdict_processable result = false ->
  exists x,
    apply_override (PFloat l) (PFloat e) result = Raise x
    /\ (x = TypeError \/ x = AttributeError).
Proof.
  destruct result as [| | | | | |d|]; try (intros _; cbn; solve [eauto]).
  intros H. simpl in H. unfold apply_override. fold (sub_scores_of d).
  destruct (sub_scores_processable (sub_scores_of d)) eqn:Hs.
  - destruct (flip_sub_scores_processable _ Hs) as [v ->]. cbn [bind].
    rewrite override_note_floats. cbn [bind].
    fold (completed d v). fold (base_reason_of (completed d v)).
    rewrite base_reason_completed.
    destruct (base_reason_shape d) as [[b Hb]|[T Hadd]].
    + rewrite Hb in H. discriminate.
    + rewrite T, Hadd. cbn. eauto.
  - destruct (flip_sub_scores_unprocessable _ Hs) as (x & -> & Hx). cbn. eauto.
Qed.

Section OverrideFurther.

Variable float_of_str : string -> option float.

Local Abbreviation override := (timer_override float_of_str).
Local Abbreviation fires := (override_fires float_of_str).

(** X1: whatever the context, a returned verdict agrees with the parsed
    one on every key other than [sub_scores], [task_is_complete] and
    [reason]. *)
Theorem override_leaves_other_keys context d result' :
  override context (PDict d) = Ok result' ->
  exists d',
    result' = PDict d'
    /\ forall k,
        k <> "sub_scores" -> k <> "task_is_complete" -> k <> "reason" ->
        dict_get k d' = dict_get k d.
Proof.
  intros H. apply timer_override_cases in H as [->|(l & e & H)]; [eauto|].
  apply apply_override_inv in H as (d0 & v & [= <-] & _ & ->).
  eexists. split; [reflexivity|]. intros k H1 H2 H3. now apply overridden_other.
Qed.

(** X2: whatever the context, the keys of the parsed verdict keep their
    order in the returned verdict; the only keys that can come after
    them are [sub_scores] and [reason], each only when the parsed
    verdict did not have it. *)
Theorem override_keeps_key_order context d result' :
  override context (PDict d) = Ok result' ->
  exists d' added,
    result' = PDict d'
    /\ keys d' = (keys d ++ added)%list
    /\ forall k, In k added ->
                 (k = "sub_scores" \/ k = "reason") /\ dict_mem k d = false.
Proof.
  intros H. apply timer_override_cases in H as [->|(l & e & H)].
  - exists d, []. rewrite app_nil_r. repeat split; auto; contradiction.
  - apply apply_override_inv in H as (d0 & v & [= <-] & _ & ->).
    rewrite overridden_eq. unfold completed.
    set (r1 := dict_set "sub_scores" v d).
    assert (K1 : keys r1 = (keys d ++ if dict_mem "sub_scores" d then []
                                      else ["sub_scores"])%list).
    { unfold r1. rewrite dict_set_keys.
      destruct (dict_mem "sub_scores" d); now rewrite ?app_nil_r. }
    set (r2 := if dict_mem "task_is_complete" r1
               then dict_set "task_is_complete" (PBool true) r1 else r1).
    assert (K2 : keys r2 = keys r1).
    { unfold r2. destruct (dict_mem "task_is_complete" r1) eqn:M; [|reflexivity].
      now rewrite dict_set_keys, M. }
    assert (M2 : dict_mem "reason" r2 = dict_mem "reason" d).
    { unfold r2. destruct (dict_mem "task_is_complete" r1);
        rewrite ?dict_mem_set_other by discriminate;
        unfold r1; now rewrite dict_mem_set_other by discriminate. }
    eexists _, ((if dict_mem "sub_scores" d then [] else ["sub_scores"])
                ++ if dict_mem "reason" d then [] else ["reason"])%list.
    split; [reflexivity|]. split.
    + rewrite dict_set_keys, M2, K2, K1, app_assoc.
      destruct (dict_mem "reason" d); now rewrite ?app_nil_r.
    + intros k Hin. apply in_app_or in Hin as [Hin|Hin].
      * destruct (dict_mem "sub_scores" d) eqn:M; [contradiction|].
        destruct Hin as [<-|[]]. auto.
      * destruct (dict_mem "reason" d) eqn:M; [contradiction|].
        destruct Hin as [<-|[]]. auto.
Qed.

(** X3: when the override fires, the block returns exactly on the
    processable verdicts: a mapping whose sub-scores are a list of
    mappings with a text or falsy metric (or an empty string or mapping)
    and whose reason is text or falsy. On any other verdict it raises
    [TypeError] or [AttributeError]. *)
Theorem override_returns_on_processable_verdicts_only ctx l e result :
  fires ctx l e ->
  (verdict_processable result = true ->
   exists result', override (Some ctx) result = Ok result')
  /\ (verdict_processable result = false ->
      exists x,
        override (Some ctx) result = Raise x
        /\ (x = TypeError \/ x = AttributeError)).
Proof.
  intros F. rewrite (override_fires_eq _ _ _ _ result F). split.
  - apply apply_override_processable.
  - apply apply_override_unprocessable.
Qed.

(** X4: when the override fires and returns, the prior reason, read as
    [result.get("reason") or ""], is text, and the new reason is the
    note alone when that text is empty and the text, a blank line and
    the note otherwise. *)
Theorem override_appends_note_to_prior_reason ctx l e d result' :
  fires ctx l e ->
  override (Some ctx) (PDict d) = Ok result' ->
  exists d' prior,
    result' = PDict d'
    /\ base_reason_of d = PStr prior
    /\ dict_get "reason" d'
       = Some (PStr (if String.eqb prior "" then timer_note e l
                     else (prior ++ (nl ++ nl)) ++ timer_note e l)).
Proof.
  intros F H.
  assert (P : verdict_processable (PDict d) = true).
  { destruct (verdict_processable (PDict d)) eqn:P; [reflexivity|].
    destruct (apply_override_unprocessable l e _ P) as (x & Hx & _).
    rewrite (override_fires_eq _ _ _ _ _ F) in H. congruence. }
  simpl in P. apply andb_prop in P as [_ P].
  destruct (base_reason_of d) as [|x|x|x|prior|x|x|x] eqn:Hb; try discriminate.
  rewrite (override_fires_eq _ _ _ _ _ F) in H.
  apply apply_override_inv in H as (d0 & v & [= <-] & _ & ->).
  eexists _, prior. split; [reflexivity|]. split; [reflexivity|].
  now rewrite overridden_reason, Hb.
Qed.

End OverrideFurther.

(** ** The keywords of the two overrides *)

Lemma prefix_app_inv a b s :
  String.prefix (a ++ b) s = true -> String.prefix a s = true.
Proof.
  revert s. induction a as [|c a IH]; intros s.
  - intros _. now destruct s.
  - destruct s as [|c' s]; simpl; [discriminate|].
    destruct (Ascii.ascii_dec c c'); [apply IH | discriminate].
Qed.

Lemma contains_app_inv a b s :
  contains (a ++ b) s = true -> contains a s = true.
Proof.
  induction s as [|c s IH].
  - change (contains (a ++ b) "") with (if String.prefix (a ++ b) "" then true else false).
    destruct (String.prefix (a ++ b) "") eqn:E; [|discriminate].
    intros _. apply contains_prefix. now apply prefix_app_inv in E.
  - rewrite !contains_cons. intros H. apply orb_prop in H as [H|H].
    + apply prefix_app_inv in H. now rewrite H.
    + rewrite (IH H). apply orb_true_r.
Qed.

(** X5: the five keywords of the helper and the four of [evaluate]
    select the same metrics; a metric with "seconds" has "second". *)
Theorem helper_keywords_select_the_metrics_of_evaluate metric :
  metric_has_keyword metric = metric_is_duration metric.
Proof.
  unfold metric_has_keyword, metric_is_duration, helper_keywords. cbn [existsb].
  assert (H := contains_app_inv "second" "s" metric).
  change ("second" ++ "s") with "seconds" in H.
  destruct (contains "second" metric), (contains "seconds" metric),
    (contains "minute" metric), (contains "duration" metric),
    (contains "time" metric); try reflexivity; now specialize (H eq_refl).
Qed.

(** ** The standalone helper *)

Lemma dict_mem_set_same_key k v d : dict_mem k (dict_set k v d) = true.
Proof. unfold dict_mem. now rewrite dict_get_set_same. Qed.

Lemma hasattr_obj a k : hasattr (PObj a) k = dict_mem k a.
Proof. unfold hasattr, py_getattr, dict_mem. now destruct (dict_get k a). Qed.

Lemma py_getattr_ok o k v :
  py_getattr o k = Ok v -> exists a, o = PObj a /\ dict_get k a = Some v.
Proof.
  destruct o; try discriminate. simpl.
  destruct (dict_get k attrs) eqn:E; [|discriminate]. intros [= <-]. eauto.
Qed.

Lemma py_setattr_ok o k v o' :
  py_setattr o k v = Ok o' -> exists a, o = PObj a /\ o' = PObj (dict_set k v a).
Proof. destruct o; try discriminate. intros [= <-]. eauto. Qed.

Lemma app_not_empty_r a b : String.eqb b "" = false -> String.eqb (a ++ b) "" = false.
Proof. destruct a; [auto | reflexivity]. Qed.

Lemma mapM_fixed {A} (f : A -> res A) l l' :
  (forall a b, f a = Ok b -> f b = Ok b) ->
  mapM f l = Ok l' -> mapM f l' = Ok l'.
Proof.
  intros Hf H. apply mapM_ok_Forall2 in H.
  induction H as [|a b l l' Hab _ IH]; simpl; [reflexivity|].
  now rewrite (Hf _ _ Hab), IH.
Qed.

Lemma mapM_ok_length {A B} (f : A -> res B) l l' :
  mapM f l = Ok l' -> List.length l' = List.length l.
Proof.
  intros H. apply mapM_ok_Forall2 in H.
  induction H; simpl; congruence.
Qed.

(** What the first loop of the helper makes of one sub-score. *)
Lemma helper_flip_cases sub sub' :
  helper_flip sub = Ok sub' ->
  sub' = sub
  \/ (helper_matches sub = true /\ failed sub = true
      /\ exists a, sub = PObj a
                   /\ sub' = PObj (dict_set "evaluation" (PStr pass_symbol) a)).
Proof.
  unfold helper_flip, helper_matches, failed. intros H.
  destruct (py_lower _) as [m|x]; cbn [bind] in H; [|discriminate].
  destruct (metric_has_keyword m); [|injection H; auto].
  destruct (py_eq_str _ fail_symbol); [|injection H; auto].
  apply py_setattr_ok in H as (a & -> & ->). right. eauto.
Qed.

Lemma helper_flip_fixed sub sub' :
  helper_flip sub = Ok sub' -> helper_flip sub' = Ok sub'.
Proof.
  intros H. destruct (helper_flip_cases _ _ H) as [->|(_ & _ & a & -> & ->)];
    [exact H|].
  unfold helper_flip, getattr_default, py_getattr in *.
  rewrite dict_get_set_other by discriminate.
  rewrite dict_get_set_same.
  destruct (py_lower _) as [m|x]; cbn [bind] in *; [|discriminate].
  destruct (metric_has_keyword m); reflexivity.
Qed.

Lemma helper_flip_all_fixed ss ss' :
  helper_flip_all ss = Ok ss' -> helper_flip_all ss' = Ok ss'.
Proof.
  unfold helper_flip_all.
  destruct (py_truthy ss) eqn:T; [|intros [= <-]; now rewrite T].
  intros H. apply bind_ok in H as (elems & Hi & H).
  apply bind_ok in H as (elems' & Hm & [= <-]).
  destruct ss as [| | | |s|l|d|]; try discriminate;
    try (rewrite T, Hi; cbn [bind]; rewrite Hm; reflexivity).
  injection Hi as <-.
  assert (T' : py_truthy (PList elems') = true).
  { apply mapM_ok_length in Hm. destruct l; [discriminate|].
    destruct elems'; [discriminate|reflexivity]. }
  rewrite T'. cbn [py_iter bind].
  now rewrite (mapM_fixed _ _ _ helper_flip_fixed Hm).
Qed.

Lemma helper_reason_fixed reason note reason' :
  String.eqb note "" = false ->
  helper_reason reason note = Ok reason' ->
  helper_reason reason' note = Ok reason'.
Proof.
  intros Hn H.
  assert (N : helper_reason (PStr note) note = Ok (PStr note)).
  { unfold helper_reason. cbn [py_truthy]. rewrite Hn, contains_self. reflexivity. }
  unfold helper_reason in H.
  destruct (py_truthy reason) eqn:T; cbn [negb] in H; [|injection H as <-; exact N].
  destruct reason as [| | | |r|l|d|]; try discriminate.
  - destruct (contains note r) eqn:C; cbn [negb] in H; injection H as <-.
    + unfold helper_reason. now rewrite T, C.
    + assert (E : String.eqb (rstrip r ++ nl ++ nl ++ note) "" = false)
        by (apply app_not_empty_r; reflexivity).
      assert (I : contains note (rstrip r ++ nl ++ nl ++ note) = true)
        by (do 3 apply contains_app_l; apply contains_self).
      change (helper_reason (PStr (rstrip r ++ nl ++ nl ++ note)) note
              = Ok (PStr (rstrip r ++ nl ++ nl ++ note))).
      unfold helper_reason, py_truthy. now rewrite E, I.
  - destruct (existsb _ l) eqn:C; cbn [negb] in H; [|discriminate].
    injection H as <-. unfold helper_reason. now rewrite T, C.
  - destruct (dict_mem note d) eqn:C; cbn [negb] in H; [|discriminate].
    injection H as <-. unfold helper_reason. now rewrite T, C.
Qed.

(** The attributes after the three steps of the helper. *)
Lemma helper_override_inv e l result result' :
  helper_override (PFloat e) (PFloat l) result = Ok result' ->
  exists a ss ss' a2 reason reason',
    result = PObj a
    /\ dict_get "sub_scores" a = Some ss
    /\ helper_flip_all ss = Ok ss'
    /\ (if dict_mem "is_passed" a
        then exists all_ok,
            helper_all_ok ss' = Ok all_ok
            /\ a2 = dict_set "is_passed" (PBool all_ok) (dict_set "sub_scores" ss' a)
        else a2 = dict_set "sub_scores" ss' a)
    /\ dict_get "reason" a2 = Some reason
    /\ helper_reason reason (timer_note e l) = Ok reason'
    /\ result' = PObj (dict_set "reason" reason' a2).
Proof.
  unfold helper_override. intros H.
  apply bind_ok in H as (ss & Hss & H).
  apply py_getattr_ok in Hss as (a & -> & Hss).
  apply bind_ok in H as (ss' & Hflip & H).
  cbn [py_setattr bind] in H.
  apply bind_ok in H as (r2 & H2 & H).
  rewrite override_note_floats in H. cbn [bind] in H.
  apply bind_ok in H as (reason & Hr & H).
  apply bind_ok in H as (reason' & Hr' & H).
  rewrite hasattr_obj, dict_mem_set_other in H2 by discriminate.
  assert (exists a2, r2 = PObj a2
            /\ if dict_mem "is_passed" a
               then exists all_ok,
                   helper_all_ok ss' = Ok all_ok
                   /\ a2 = dict_set "is_passed" (PBool all_ok)
                             (dict_set "sub_scores" ss' a)
               else a2 = dict_set "sub_scores" ss' a) as (a2 & -> & Ha2).
  { destruct (dict_mem "is_passed" a).
    - apply bind_ok in H2 as (all_ok & Hok & [= <-]). eauto.
    - injection H2 as <-. eauto. }
  apply py_getattr_ok in Hr as (a2' & [= <-] & Hr).
  injection H as <-.
  exists a, ss, ss', a2, reason, reason'. repeat split; auto.
Qed.

(** An object on which every step of the helper finds its work done is
    returned as it is. *)
Lemma helper_override_fixed e l a ss reason :
  dict_get "sub_scores" a = Some ss ->
  helper_flip_all ss = Ok ss ->
  (dict_mem "is_passed" a = true ->
   exists all_ok, helper_all_ok ss = Ok all_ok
                  /\ dict_get "is_passed" a = Some (PBool all_ok)) ->
  dict_get "reason" a = Some reason ->
  helper_reason reason (timer_note e l) = Ok reason ->
  helper_override (PFloat e) (PFloat l) (PObj a) = Ok (PObj a).
Proof.
  intros Hss Hflip Hpass Hr Hr'. unfold helper_override.
  unfold py_getattr at 1. rewrite Hss. cbn [bind]. rewrite Hflip.
  cbn [bind py_setattr]. rewrite (dict_set_get_same _ _ _ Hss), hasattr_obj.
  assert (F : forall r,
             r = Ok (PObj a) ->
             (result <- r ;;
              note <- override_note (PFloat e) (PFloat l) ;;
              reason <- py_getattr result "reason" ;;
              reason <- helper_reason reason note ;;
              py_setattr result "reason" reason) = Ok (PObj a)).
  { intros r ->. cbn [bind]. rewrite override_note_floats. cbn [bind].
    unfold py_getattr. rewrite Hr. cbn [bind]. rewrite Hr'. cbn [bind py_setattr].
    now rewrite (dict_set_get_same _ _ _ Hr). }
  apply F. destruct (dict_mem "is_passed" a); [|reflexivity].
  destruct (Hpass eq_refl) as (all_ok & -> & Hp). cbn [bind py_setattr].
  now rewrite (dict_set_get_same _ _ _ Hp).
Qed.

Lemma helper_override_idem e l result result' :
  helper_override (PFloat e) (PFloat l) result = Ok result' ->
  helper_override (PFloat e) (PFloat l) result' = Ok result'.
Proof.
  intros H.
  apply helper_override_inv in H
    as (a & ss & ss' & a2 & reason & reason' & -> & Hss & Hflip & Ha2 & Hr & Hr' & ->).
  assert (S2 : dict_get "sub_scores" a2 = Some ss').
  { destruct (dict_mem "is_passed" a).
    - destruct Ha2 as (ok & _ & ->).
      rewrite dict_get_set_other by discriminate. apply dict_get_set_same.
    - subst a2. apply dict_get_set_same. }
  assert (M2 : dict_mem "is_passed" a2 = dict_mem "is_passed" a).
  { destruct (dict_mem "is_passed" a) eqn:M.
    - destruct Ha2 as (ok & _ & ->). apply dict_mem_set_same_key.
    - subst a2. now rewrite dict_mem_set_other by discriminate. }
  apply (helper_override_fixed e l _ ss' reason').
  - now rewrite dict_get_set_other by discriminate.
  - exact (helper_flip_all_fixed _ _ Hflip).
  - rewrite dict_mem_set_other, M2 by discriminate. intros M. rewrite M in Ha2.
    destruct Ha2 as (ok & Hok & ->). exists ok. split; [exact Hok|].
    rewrite dict_get_set_other by discriminate. apply dict_get_set_same.
  - apply dict_get_set_same.
  - exact (helper_reason_fixed _ _ _ (timer_note_not_empty e l) Hr').
Qed.

Lemma forallb_negb_existsb {A} (f : A -> bool) l :
  forallb (fun a => negb (f a)) l = negb (existsb f l).
Proof.
  induction l as [|a l IH]; simpl; [reflexivity|].
  rewrite IH. now destruct (f a).
Qed.

Lemma helper_all_ok_elements ss all_ok :
  helper_all_ok ss = Ok all_ok -> all_ok = negb (existsb failed (elements ss)).
Proof.
  unfold helper_all_ok, py_or, elements. intros H.
  apply bind_ok in H as (elems & Hi & [= <-]).
  change (fun sub => negb (py_eq_str (getattr_default sub "evaluation" PNone)
                                     fail_symbol))
    with (fun sub => negb (failed sub)).
  rewrite forallb_negb_existsb. do 2 f_equal.
  destruct (py_truthy ss) eqn:T; [now rewrite Hi|].
  injection Hi as <-.
  destruct ss as [|b|z|f|s|l|d|]; try reflexivity; try discriminate.
  - destruct s; [reflexivity | discriminate].
  - destruct l; [reflexivity | discriminate].
  - destruct d; [reflexivity | discriminate].
Qed.

Section HelperFurther.

Variable float_of_str : string -> option float.

Local Abbreviation to_float := (py_float float_of_str).
Local Abbreviation helper := (_apply_timer_override_if_needed float_of_str).

(** What the helper does is decided by the context alone: it returns
    every response as it is, or raises on every response, or runs its
    override on every response with the same two floats. *)
Lemma helper_decision ctx :
  (forall result, helper result ctx = Ok result)
  \/ (exists x, forall result, helper result ctx = Raise x)
  \/ (exists e l, forall result,
         helper result ctx = helper_override (PFloat e) (PFloat l) result).
Proof.
  unfold _apply_timer_override_if_needed.
  destruct (lookup_elapsed_limit ctx) as [[elapsed limit]|]; [|now left].
  destruct (is_none elapsed || is_none limit); [now left|].
  destruct (to_float elapsed) as [e|x]; cbn [bind].
  - destruct (to_float limit) as [l|x]; cbn [bind].
    + cbn [py_le_zero py_mul_0_9 py_lt bind].
      destruct (float_leb l fzero); [now left|].
      destruct (float_ltb e (float_mul f0_9 l)); [now left|].
      right. right. now exists e, l.
    + destruct x; (now left) || (right; left; eexists; reflexivity).
  - destruct x; (now left) || (right; left; eexists; reflexivity).
Qed.

Lemma helper_cases ctx result result' :
  helper result ctx = Ok result' ->
  result' = result
  \/ exists e l, helper_override (PFloat e) (PFloat l) result = Ok result'.
Proof.
  intros H. destruct (helper_decision ctx) as [D|[[x D]|(e & l & D)]];
    rewrite D in H.
  - injection H; auto.
  - discriminate.
  - eauto.
Qed.

Lemma helper_fires_eq ctx e l result :
  helper_fires float_of_str ctx e l ->
  helper result ctx = helper_override (PFloat e) (PFloat l) result.
Proof.
  intros [elapsed limit H1 H2 He Hl Hpos Hlong].
  rewrite (helper_fires_at_nine_tenths _ _ _ _ _ _ _ H1 H2 He Hl).
  now rewrite Hpos, Hlong.
Qed.

(** X6: the helper returns the response as it is when it has no usable
    timer data: a lookup raises, a value is [None], a conversion raises
    [TypeError] or [ValueError], the limit is at most zero, or the
    elapsed time is below nine tenths of the limit. *)
Theorem helper_returns_response_without_timer_data ctx result :
  helper_skips float_of_str ctx -> helper result ctx = Ok result.
Proof.
  intros [key x Hkey Hraise
         |elapsed limit H1 H2 Hnone
         |elapsed limit H1 H2 Hnot
         |elapsed limit e H1 H2 He Hnot
         |elapsed limit e l H1 H2 He Hl Hle
         |elapsed limit e l H1 H2 He Hl Hshort].
  - unfold _apply_timer_override_if_needed, lookup_elapsed_limit.
    destruct Hkey as [-> | ->]; rewrite Hraise; [reflexivity|].
    now destruct (ctx TIMER_ELAPSED_SECONDS).
  - unfold _apply_timer_override_if_needed, lookup_elapsed_limit.
    rewrite H1, H2. destruct Hnone as [-> | ->]; [reflexivity|].
    now rewrite orb_true_r.
  - unfold _apply_timer_override_if_needed, lookup_elapsed_limit.
    rewrite H1, H2. destruct (is_none elapsed || is_none limit); [reflexivity|].
    destruct Hnot as [-> | ->]; reflexivity.
  - unfold _apply_timer_override_if_needed, lookup_elapsed_limit.
    rewrite H1, H2. destruct (is_none elapsed || is_none limit); [reflexivity|].
    rewrite He. cbn [bind]. destruct Hnot as [-> | ->]; reflexivity.
  - rewrite (helper_fires_at_nine_tenths _ _ _ _ _ _ _ H1 H2 He Hl).
    now rewrite Hle.
  - rewrite (helper_fires_at_nine_tenths _ _ _ _ _ _ _ H1 H2 He Hl).
    rewrite Hshort. now destruct (float_leb l fzero).
Qed.

(** X7: the helper is idempotent: a response it has returned is returned
    as it is by a second call with the same context. *)
Theorem helper_is_idempotent ctx result result' :
  _apply_timer_override_if_needed float_of_str result ctx = Ok result' ->
  _apply_timer_override_if_needed float_of_str result' ctx = Ok result'.
Proof.
  intros H. destruct (helper_decision ctx) as [D|[[x D]|(e & l & D)]].
  - apply D.
  - rewrite D in H. discriminate.
  - rewrite D in H. rewrite D. exact (helper_override_idem _ _ _ _ H).
Qed.

(** X8: the helper neither adds nor removes an attribute of the
    response, and leaves every attribute other than [sub_scores],
    [is_passed] and [reason] as it was; a response without [is_passed]
    gets none. *)
Theorem helper_keeps_the_attributes ctx result result' :
  helper result ctx = Ok result' ->
  keys (members result') = keys (members result)
  /\ forall k,
      k <> "sub_scores" -> k <> "is_passed" -> k <> "reason" ->
      member k result' = member k result.
Proof.
  intros H. apply helper_cases in H as [->|(e & l & H)]; [auto|].
  apply helper_override_inv in H
    as (a & ss & ss' & a2 & reason & reason' & -> & Hss & Hflip & Ha2 & Hr & Hr' & ->).
  assert (M1 : dict_mem "sub_scores" a = true) by (unfold dict_mem; now rewrite Hss).
  assert (Mr : dict_mem "reason" a2 = true) by (unfold dict_mem; now rewrite Hr).
  assert (K2 : keys a2 = keys a
               /\ forall k, k <> "sub_scores" -> k <> "is_passed" ->
                            dict_get k a2 = dict_get k a).
  { destruct (dict_mem "is_passed" a) eqn:M.
    - destruct Ha2 as (ok & _ & ->). split.
      + now rewrite dict_set_keys, dict_mem_set_other, M, dict_set_keys, M1
          by discriminate.
      + intros k H1 H2. now rewrite !dict_get_set_other.
    - subst a2. split.
      + now rewrite dict_set_keys, M1.
      + intros k H1 H2. now rewrite dict_get_set_other. }
  destruct K2 as [K2 G2]. unfold member. cbn [members]. split.
  - now rewrite dict_set_keys, Mr.
  - intros k H1 H2 H3. rewrite dict_get_set_other by exact H3. now apply G2.
Qed.

(** X9: when the response holds a list of sub-scores, the helper returns
    a list of the same length in which each sub-score is as it was, or
    was at the fail symbol with a keyword in its metric and is now at
    the pass symbol with its other attributes kept. *)
Theorem helper_flips_only_failed_duration_sub_scores ctx result result' subs :
  helper result ctx = Ok result' ->
  member "sub_scores" result = Some (PList subs) ->
  exists subs',
    member "sub_scores" result' = Some (PList subs')
    /\ Forall2
         (fun s s' =>
            s' = s
            \/ (helper_matches s = true
                /\ failed s = true
                /\ member "evaluation" s' = Some (PStr pass_symbol)
                /\ forall k, k <> "evaluation" -> member k s' = member k s))
         subs subs'.
Proof.
  intros H Hs. apply helper_cases in H as [->|(e & l & H)].
  - exists subs. split; [exact Hs|]. clear. induction subs; constructor; auto.
  - apply helper_override_inv in H
      as (a & ss & ss' & a2 & reason & reason' & -> & Hss & Hflip & Ha2 & Hr & Hr' & ->).
    unfold member in Hs. cbn [members] in Hs. rewrite Hss in Hs. injection Hs as ->.
    assert (S2 : dict_get "sub_scores" a2 = Some ss').
    { destruct (dict_mem "is_passed" a).
      - destruct Ha2 as (ok & _ & ->).
        rewrite dict_get_set_other by discriminate. apply dict_get_set_same.
      - subst a2. apply dict_get_set_same. }
    unfold member at 1. cbn [members].
    rewrite dict_get_set_other, S2 by discriminate.
    unfold helper_flip_all in Hflip.
    destruct (py_truthy (PList subs)) eqn:T.
    + cbn [py_iter bind] in Hflip.
      apply bind_ok in Hflip as (subs' & Hm & [= <-]).
      exists subs'. split; [reflexivity|].
      apply mapM_ok_Forall2 in Hm. clear - Hm.
      induction Hm as [|s s' t t' Hs _ IH]; constructor; auto.
      apply helper_flip_cases in Hs as [->|(Hk & Hf & b & -> & ->)]; [auto|].
      right. repeat split; auto.
      * unfold member. cbn [members]. apply dict_get_set_same.
      * intros k Hk'. unfold member. cbn [members].
        now apply dict_get_set_other.
    + injection Hflip as <-. destruct subs; [|discriminate].
      exists []. split; [reflexivity | constructor].
Qed.

(** X10: when the helper runs its override on a response that has
    [is_passed], the returned response has [is_passed] true exactly when
    none of its sub-scores is at the fail symbol. *)
Theorem helper_recomputes_is_passed ctx e l result result' :
  helper_fires float_of_str ctx e l ->
  helper result ctx = Ok result' ->
  dict_mem "is_passed" (members result) = true ->
  exists sub_scores,
    member "sub_scores" result' = Some sub_scores
    /\ member "is_passed" result'
       = Some (PBool (negb (existsb failed (elements sub_scores)))).
Proof.
  intros F H M. rewrite (helper_fires_eq _ _ _ _ F) in H.
  apply helper_override_inv in H
    as (a & ss & ss' & a2 & reason & reason' & -> & Hss & Hflip & Ha2 & Hr & Hr' & ->).
  cbn [members] in M. rewrite M in Ha2. destruct Ha2 as (ok & Hok & ->).
  exists ss'. unfold member. cbn [members]. split.
  - rewrite !dict_get_set_other by discriminate. apply dict_get_set_same.
  - rewrite dict_get_set_other by discriminate.
    rewrite dict_get_set_same. now rewrite (helper_all_ok_elements _ _ Hok).
Qed.

End HelperFurther.

(** ** [context_provision] and [evaluate] as a whole *)

Lemma mapM_raise_in {A B} (P : exn -> Prop) (f : A -> res B) l :
  (exists a, In a l /\ forall b, f a <> Ok b) ->
  (forall a x, In a l -> f a = Raise x -> P x) ->
  exists x, mapM f l = Raise x /\ P x.
Proof.
  induction l as [|a l IH]; intros (bad & Hin & Hbad) HP; [contradiction|].
  simpl. destruct (f a) as [b|x] eqn:Ha; cbn [bind].
  - destruct IH as (x & -> & Hx).
    + destruct Hin as [<-|Hin]; [now elim (Hbad b)|eauto].
    + intros a' x' Hin'. apply HP. now right.
    + cbn. eauto.
  - exists x. split; [reflexivity|]. apply (HP a); [now left | exact Ha].
Qed.

Lemma py_getattr_raises o k x : py_getattr o k = Raise x -> x = AttributeError.
Proof.
  destruct o; simpl; try congruence. destruct (dict_get k attrs); congruence.
Qed.

Lemma tool_names_raises tool_list x :
  tool_names tool_list = Raise x -> x = TypeError \/ x = AttributeError.
Proof.
  unfold tool_names. destruct (py_truthy tool_list); [|discriminate].
  destruct (py_iter tool_list) as [tools|y] eqn:Hi; cbn [bind].
  - intros H. right.
    apply (mapM_raise_kind (fun x => x = AttributeError) _ _ _
             (fun tool => py_getattr_raises tool "tool_name") H).
  - intros [= <-]. left. destruct tool_list; simpl in Hi; congruence.
Qed.

Lemma tool_names_unreadable tool_list :
  tools_readable tool_list = false -> forall names, tool_names tool_list <> Ok names.
Proof.
  unfold tools_readable, tool_names.
  destruct (py_truthy tool_list) eqn:T; [|discriminate]. cbn [negb orb].
  intros H names E. apply bind_ok in E as (tools & Hi & Hm).
  apply mapM_ok_Forall2 in Hm.
  destruct tool_list as [| | | |s|l|d|]; try discriminate.
  - destruct s as [|c s]; [discriminate|]. injection Hi as <-.
    inversion Hm; subst. discriminate.
  - injection Hi as <-.
    assert (forallb (fun tool => hasattr tool "tool_name") l = true); [|congruence].
    clear - Hm. induction Hm as [|t n l l' Ht _ IH]; [reflexivity|].
    simpl. unfold hasattr at 1. now rewrite Ht.
  - destruct d as [|[k v] d]; [discriminate|]. injection Hi as <-.
    inversion Hm; subst. discriminate.
Qed.

Lemma dict_get_nodup k v (d : dict) :
  NoDup (keys d) -> In (k, v) d -> dict_get k d = Some v.
Proof.
  unfold keys. induction d as [|[k' v'] d IH]; simpl; [contradiction|].
  intros N [[= -> ->]|Hin].
  - now rewrite String.eqb_refl.
  - inversion N as [|? ? Hnot N']; subst.
    destruct (String.eqb k k') eqn:E; [|auto].
    apply String.eqb_eq in E. subst k'. elim Hnot.
    apply in_map_iff. now exists (k, v).
Qed.

Section EvaluateFurther.

Variable float_of_str : string -> option float.
Variable prompter : Type.
Variable message : Type.
Variable create_api_prompt_template : pyval -> prompter -> res prompter.
Variable message_constructor :
  prompter -> string -> string -> bool -> res message.
Variable get_response : message -> res (string * float).
Variable json_parser : string -> res pyval.

Local Abbreviation provision :=
  (context_provision prompter create_api_prompt_template).
Local Abbreviation eval :=
  (evaluate float_of_str prompter message create_api_prompt_template
     message_constructor get_response json_parser).

(** X11: when the tool information is a mapping in which some tool list
    is neither falsy nor a list of objects with a [tool_name],
    [context_provision] raises [TypeError] or [AttributeError], whatever
    the prompter would do with the mapping: the mapping does not reach
    it. *)
Theorem context_provision_raises_on_unreadable_tools self_prompter ctx d :
  ctx TOOL_INFO = Ok (PDict d) ->
  NoDup (keys d) ->
  forallb (fun kv => tools_readable (snd kv)) d = false ->
  exists x,
    provision self_prompter (Some ctx) = Raise x
    /\ (x = TypeError \/ x = AttributeError).
Proof.
  intros Hd N R. unfold context_provision. rewrite Hd. cbn [bind py_iter].
  destruct (mapM_raise_in (fun x => x = TypeError \/ x = AttributeError)
              (provision_agent (PDict d)) (map (fun kv => PStr (fst kv)) d))
    as (x & -> & Hx).
  - assert (exists kv, In kv d /\ tools_readable (snd kv) = false)
      as ([k v] & Hin & Hv).
    { clear - R. induction d as [|kv d IH]; [discriminate|]. simpl in R.
      destruct (tools_readable (snd kv)) eqn:E.
      - destruct (IH R) as (kv' & Hin & Hv). exists kv'. split; [now right|auto].
      - exists kv. split; [now left|auto]. }
    exists (PStr k). split.
    + apply in_map_iff. now exists (k, v).
    + intros b E. unfold provision_agent, py_getitem in E.
      rewrite (dict_get_nodup _ _ _ N Hin) in E. cbn [bind] in E.
      apply bind_ok in E as (names & Hn & _).
      exact (tool_names_unreadable _ Hv _ Hn).
  - intros agent x Hin E. apply in_map_iff in Hin as ([k v] & <- & Hin).
    cbn [fst] in E. unfold provision_agent, py_getitem in E.
    destruct (dict_get_key _ _ _ Hin) as [v' Hv']. rewrite Hv' in E.
    cbn [bind] in E.
    destruct (tool_names v') eqn:Hn; cbn [bind] in E; [discriminate|].
    injection E as <-. exact (tool_names_raises _ _ Hn).
  - cbn. eauto.
Qed.

(** X12: when [evaluate] returns, the cost it returns is the cost of the
    model call, and the verdict it returns is the parsed verdict as it
    was or, for a processable parsed verdict, what the override branch
    makes of it. *)
Theorem evaluate_returns_the_cost_of_the_model_call
    self_prompter request log_path eva_all_screenshots context result' cost' :
  eval self_prompter request log_path eva_all_screenshots context
  = Ok (result', cost') ->
  exists p msg raw result,
    provision self_prompter context = Ok p
    /\ message_constructor p log_path request eva_all_screenshots = Ok msg
    /\ get_response msg = Ok (raw, cost')
    /\ json_parser raw = Ok result
    /\ (result' = result
        \/ (verdict_processable result = true
            /\ exists l e, apply_override (PFloat l) (PFloat e) result = Ok result')).
Proof.
  unfold evaluate. intros H.
  apply bind_ok in H as (p & Hp & H).
  apply bind_ok in H as (msg & Hm & H).
  apply bind_ok in H as ([raw cost] & Hr & H).
  apply bind_ok in H as (result & Hj & H).
  apply bind_ok in H as (r & Ho & [= <- <-]).
  exists p, msg, raw, result. repeat split; auto.
  apply timer_override_cases in Ho as [->|(l & e & Ho)]; [auto|].
  right. split; [|eauto].
  destruct (verdict_processable result) eqn:P; [reflexivity|].
  destruct (apply_override_unprocessable l e _ P) as (x & Hx & _). congruence.
Qed.

(** X13: with a present context in which the lookup of the tool
    information returns [None], [evaluate] raises [TypeError], whatever
    the timer values, the model and the parser are: no verdict is
    returned. *)
Theorem evaluate_raises_without_tool_info
    self_prompter request log_path eva_all_screenshots ctx :
  ctx TOOL_INFO = Ok PNone ->
  evaluate float_of_str prompter message create_api_prompt_template
    message_constructor get_response json_parser
    self_prompter request log_path eva_all_screenshots (Some ctx)
  = Raise TypeError.
Proof.
  intros H. unfold evaluate, context_provision. now rewrite H.
Qed.

End EvaluateFurther.

(** ** Concrete runs of the further properties *)

Lemma context_300_helper_fires :
  helper_fires no_float_of_str context_300 f300 f300.
Proof.
  apply (HelperFires _ _ _ _ (PInt 300) (PInt 300)); reflexivity.
Defined.

Lemma override_leaves_other_keys_witness :
  exists result',
    timer_override no_float_of_str (Some context_300) (PDict extended_fields)
    = Ok result'
    /\ exists d',
        result' = PDict d'
        /\ forall k,
            k <> "sub_scores" -> k <> "task_is_complete" -> k <> "reason" ->
            dict_get k d' = dict_get k extended_fields.
Proof.
  eexists. split; [vm_compute; reflexivity|].
  apply (override_leaves_other_keys no_float_of_str (Some context_300)).
  vm_compute. reflexivity.
Defined.

Lemma override_keeps_key_order_witness :
  exists result',
    timer_override no_float_of_str (Some context_300) (PDict extended_fields)
    = Ok result'
    /\ exists d' added,
        result' = PDict d'
        /\ keys d' = (keys extended_fields ++ added)%list
        /\ forall k, In k added ->
                     (k = "sub_scores" \/ k = "reason")
                     /\ dict_mem k extended_fields = false.
Proof.
  eexists. split; [vm_compute; reflexivity|].
  apply (override_keeps_key_order no_float_of_str (Some context_300)).
  vm_compute. reflexivity.
Defined.

Lemma override_returns_on_processable_verdicts_only_witness :
  (exists result',
      timer_override no_float_of_str (Some context_300) (PDict slow_fields)
      = Ok result')
  /\ exists x,
      timer_override no_float_of_str (Some context_300)
        (PDict [("sub_scores", PNone)]) = Raise x
      /\ (x = TypeError \/ x = AttributeError).
Proof.
  split.
  - apply (proj1 (override_returns_on_processable_verdicts_only
                    no_float_of_str context_300 f300 f300 (PDict slow_fields)
                    context_300_fires)).
    reflexivity.
  - apply (proj2 (override_returns_on_processable_verdicts_only
                    no_float_of_str context_300 f300 f300
                    (PDict [("sub_scores", PNone)]) context_300_fires)).
    reflexivity.
Defined.

Lemma override_appends_note_to_prior_reason_witness :
  exists result',
    timer_override no_float_of_str (Some context_300) (PDict slow_fields)
    = Ok result'
    /\ exists d' prior,
        result' = PDict d'
        /\ base_reason_of slow_fields = PStr prior
        /\ dict_get "reason" d'
           = Some (PStr (if String.eqb prior "" then timer_note f300 f300
                         else (prior ++ (nl ++ nl)) ++ timer_note f300 f300)).
Proof.
  eexists. split; [vm_compute; reflexivity|].
  apply (override_appends_note_to_prior_reason
           no_float_of_str context_300 f300 f300 slow_fields _ context_300_fires).
  vm_compute. reflexivity.
Defined.

Lemma helper_returns_response_without_timer_data_witness :
  _apply_timer_override_if_needed no_float_of_str mixed_response context_100_of_300
  = Ok mixed_response.
Proof.
  apply helper_returns_response_without_timer_data.
  apply (HelperTooEarly _ _ (PInt 100) (PInt 300) (float_of_Z 100) f300);
    reflexivity.
Defined.

Lemma helper_is_idempotent_witness :
  exists result',
    _apply_timer_override_if_needed no_float_of_str mixed_response context_300
    = Ok result'
    /\ result' <> mixed_response
    /\ _apply_timer_override_if_needed no_float_of_str result' context_300
       = Ok result'.
Proof.
  eexists. split; [vm_compute; reflexivity|]. split; [vm_compute; discriminate|].
  apply (helper_is_idempotent no_float_of_str context_300 mixed_response).
  vm_compute. reflexivity.
Defined.

Lemma helper_keeps_the_attributes_witness :
  exists result',
    _apply_timer_override_if_needed no_float_of_str mixed_response context_300
    = Ok result'
    /\ keys (members result') = keys (members mixed_response)
    /\ forall k,
        k <> "sub_scores" -> k <> "is_passed" -> k <> "reason" ->
        member k result' = member k mixed_response.
Proof.
  eexists. split; [vm_compute; reflexivity|].
  apply (helper_keeps_the_attributes no_float_of_str context_300 mixed_response).
  vm_compute. reflexivity.
Defined.

Lemma helper_flips_only_failed_duration_sub_scores_witness :
  exists result' subs',
    _apply_timer_override_if_needed no_float_of_str mixed_response context_300
    = Ok result'
    /\ member "sub_scores" result' = Some (PList subs')
    /\ List.length subs' = 2%nat.
Proof.
  eexists.
  destruct (helper_flips_only_failed_duration_sub_scores
              no_float_of_str context_300 mixed_response _ _
              ltac:(vm_compute; reflexivity) eq_refl) as (subs' & Hs & Hf).
  exists subs'. split; [reflexivity|]. split; [exact Hs|].
  apply Forall2_length in Hf. now rewrite <- Hf.
Defined.

Lemma helper_recomputes_is_passed_witness :
  exists result' sub_scores,
    _apply_timer_override_if_needed no_float_of_str mixed_response context_300
    = Ok result'
    /\ member "sub_scores" result' = Some sub_scores
    /\ member "is_passed" result'
       = Some (PBool (negb (existsb failed (elements sub_scores)))).
Proof.
  eexists.
  destruct (helper_recomputes_is_passed
              no_float_of_str context_300 f300 f300 mixed_response _
              context_300_helper_fires ltac:(vm_compute; reflexivity) eq_refl)
    as (ss & Hs & Hp).
  exists ss. split; [reflexivity|]. split; assumption.
Defined.

Lemma context_provision_raises_on_unreadable_tools_witness :
  exists x,
    context_provision unit accept_tools tt (Some broken_tools_context) = Raise x
    /\ (x = TypeError \/ x = AttributeError).
Proof.
  apply (context_provision_raises_on_unreadable_tools
           unit accept_tools tt broken_tools_context broken_tools eq_refl).
  - repeat constructor; simpl; intuition discriminate.
  - reflexivity.
Defined.

Lemma evaluate_returns_the_cost_of_the_model_call_witness :
  exists p msg raw result,
    context_provision unit accept_tools tt (Some context_300) = Ok p
    /\ build_message p "./logs/test_paint5" "Draw a circle" true = Ok msg
    /\ answer "{}" f0_9 msg = Ok (raw, f0_9)
    /\ parse_as (PDict slow_fields) raw = Ok result
    /\ (PDict [("task_is_complete", PBool true);
               ("sub_scores", PList [five_minutes pass_symbol]);
               ("reason", PStr (("Too slow." ++ (nl ++ nl)) ++ note_300))]
        = result
        \/ (verdict_processable result = true
            /\ exists l e,
                apply_override (PFloat l) (PFloat e) result
                = Ok (PDict [("task_is_complete", PBool true);
                             ("sub_scores", PList [five_minutes pass_symbol]);
                             ("reason",
                              PStr (("Too slow." ++ (nl ++ nl)) ++ note_300))]))).
Proof.
  apply (evaluate_returns_the_cost_of_the_model_call
           no_float_of_str unit unit accept_tools build_message
           (answer "{}" f0_9) (parse_as (PDict slow_fields))
           tt "Draw a circle" "./logs/test_paint5" true (Some context_300)).
  vm_compute. reflexivity.
Defined.

Lemma evaluate_raises_without_tool_info_witness :
  evaluate no_float_of_str unit unit accept_tools build_message
    (answer "{}" fzero) (parse_as (PDict slow_fields))
    tt "Draw a circle" "./logs/test_paint5" true (Some empty_context)
  = Raise TypeError.
Proof.
  apply evaluate_raises_without_tool_info. reflexivity.
Defined.

(** ** The override of [evaluate]: when it cannot fail *)

Section OverrideTotal.

Variable float_of_str : string -> option float.

Local Abbreviation to_float := (py_float float_of_str).
Local Abbreviation convert := (convert_timer float_of_str).
Local Abbreviation override := (timer_override float_of_str).

Lemma py_float_raises v x :
  to_float v = Raise x ->
  x = TypeError \/ x = ValueError
  \/ exists z, v = PInt z /\ float_is_inf (float_of_Z z) = true.
Proof.
  destruct v; simpl; try (intros [= <-]; auto).
  - destruct (float_is_inf (float_of_Z z)) eqn:E; [|discriminate].
    intros _. right. right. eauto.
  - destruct (float_of_str s); [discriminate|]. intros [= <-]. auto.
Qed.

Lemma convert_timer_total limit elapsed :
  (forall z, limit = PInt z -> float_is_inf (float_of_Z z) = false) ->
  (forall z, elapsed = PInt z -> float_is_inf (float_of_Z z) = false) ->
  exists a b, convert limit elapsed = Ok (a, b).
Proof.
  intros Hl He. unfold convert_timer.
  destruct (negb (is_none limit) && negb (is_none elapsed)); [|eauto].
  destruct (to_float limit) as [l|x] eqn:El; cbn [bind].
  - destruct (to_float elapsed) as [e|x] eqn:Ee; cbn [bind catch_conversion]; [eauto|].
    apply py_float_raises in Ee as [->|[->|(z & -> & Hz)]]; eauto.
    rewrite (He z eq_refl) in Hz. discriminate.
  - apply py_float_raises in El as [->|[->|(z & -> & Hz)]];
      cbn [catch_conversion]; eauto.
    rewrite (Hl z eq_refl) in Hz. discriminate.
Qed.

(** X14: on a processable verdict the block cannot fail unless a timer
    value is an integer too large for a float: with no such value in the
    context it returns, whatever else the context holds. *)
Theorem override_returns_on_processable_verdicts ctx result :
  (forall key z,
      ctx key = Ok (PInt z) -> float_is_inf (float_of_Z z) = false) ->
  verdict_processable result = true ->
  exists result', override (Some ctx) result = Ok result'.
Proof.
  intros Hctx P. unfold timer_override.
  destruct (lookup_timer ctx) as [[limit elapsed] flag] eqn:L.
  assert (Hl : forall z, limit = PInt z -> float_is_inf (float_of_Z z) = false).
  { intros z ->. unfold lookup_timer in L.
    destruct (ctx TIMER_LIMIT_SECONDS) as [v|] eqn:E1; [|discriminate].
    destruct (ctx TIMER_ELAPSED_SECONDS); [|discriminate].
    destruct (ctx TIMER_DURATION_SATISFIED); [|discriminate].
    injection L as -> _ _. exact (Hctx _ _ E1). }
  assert (He : forall z, elapsed = PInt z -> float_is_inf (float_of_Z z) = false).
  { intros z ->. unfold lookup_timer in L.
    destruct (ctx TIMER_LIMIT_SECONDS); [|discriminate].
    destruct (ctx TIMER_ELAPSED_SECONDS) as [v|] eqn:E2; [|discriminate].
    destruct (ctx TIMER_DURATION_SATISFIED); [|discriminate].
    injection L as _ -> _. exact (Hctx _ _ E2). }
  destruct (convert_timer_total limit elapsed Hl He) as (a & b & Hc).
  rewrite Hc. cbn [bind].
  apply convert_timer_shape in Hc as [(l & e & -> & ->)|[->| ->]].
  - rewrite timer_guard_floats. cbn [bind].
    destruct (float_ltb fzero l); [|eauto].
    unfold duration_ok. destruct (py_truthy flag); cbn [bind py_ge].
    + now apply apply_override_processable.
    + destruct (float_leb l e); [now apply apply_override_processable | eauto].
  - cbn. eauto.
  - unfold timer_guard. cbn. destruct (py_truthy a); cbn; eauto.
Qed.

End OverrideTotal.

(** ** The note of the helper *)

Lemma helper_reason_text reason note t :
  helper_reason reason note = Ok (PStr t) -> contains note t = true.
Proof.
  unfold helper_reason.
  destruct (py_truthy reason); cbn [negb];
    [|intros [= <-]; apply contains_self].
  destruct reason as [| | | |r|l|d|]; try discriminate.
  - destruct (contains note r) eqn:C; cbn [negb]; intros [= <-]; [exact C|].
    apply contains_app_l. change (contains note (nl ++ (nl ++ note)) = true).
    do 2 apply contains_app_l. apply contains_self.
  - destruct (existsb _ l); cbn [negb]; discriminate.
  - destruct (dict_mem note d); cbn [negb]; discriminate.
Qed.

Section HelperNote.

Variable float_of_str : string -> option float.

Local Abbreviation helper := (_apply_timer_override_if_needed float_of_str).

(** X15: when the helper runs its override and returns a response whose
    reason is text, that text holds the note for the elapsed time and
    the limit. *)
Theorem helper_reason_holds_the_note ctx e l result result' t :
  helper_fires float_of_str ctx e l ->
  helper result ctx = Ok result' ->
  member "reason" result' = Some (PStr t) ->
  contains (timer_note e l) t = true.
Proof.
  intros F H Ht. rewrite (helper_fires_eq _ _ _ _ _ F) in H.
  apply helper_override_inv in H
    as (a & ss & ss' & a2 & reason & reason' & -> & _ & _ & _ & _ & Hr' & ->).
  unfold member in Ht. cbn [members] in Ht.
  rewrite dict_get_set_same in Ht. injection Ht as ->.
  exact (helper_reason_text _ _ _ Hr').
Qed.

End HelperNote.

Lemma override_returns_on_processable_verdicts_witness :
  exists result',
    timer_override no_float_of_str (Some context_95_of_100) (PDict slow_fields)
    = Ok result'.
Proof.
  apply override_returns_on_processable_verdicts; [|reflexivity].
  intros [] z; intros [= <-]; reflexivity.
Defined.

Lemma helper_reason_holds_the_note_witness :
  contains (timer_note f300 f300)
    (("Too slow, and no circle." ++ (nl ++ nl)) ++ note_300) = true.
Proof.
  apply (helper_reason_holds_the_note
           no_float_of_str context_300 f300 f300 mixed_response _ _
           context_300_helper_fires ltac:(vm_compute; reflexivity)).
  vm_compute. reflexivity.
Defined.
